(** * AirAware: station compilation (src/spark/compile_stations.py)

    A shallow embedding of the functions that carry the logic of
    [compile_stations.py] (Python 2):

    - [valid_nonzero_float] and [parse_station_record], which turn one line
      of the station registry into a station tuple or [None];
    - [calc_distance], the haversine great-circle distance in miles;
    - [determine_grid_point_neighbors], which collects the grid points
      closer than 30 miles to a station.

    How the program is read:

    - Exceptions are explicit: a call has a [result], a value or a raised
      exception, and the calls of a function are chained in the order in
      which Python evaluates them.
    - Floats are read twice.  [PyFloat.float] keeps the special values
      [inf], [-inf] and [nan], with the behaviour Python 2.7 gives them in
      arithmetic, in comparisons and in the [math] module, and reads a
      finite float as the real number it stands for: what is proved of it
      are the properties that the rounding of binary64 leaves alone.
      [Binary64] reads [calc_distance] on the floats of the machine, bit
      for bit, with the C library's [sin], [cos], [asin] and [pow] as
      parameters: there the rounding error shows.
    - [float(string)] is [FloatParse.py_float], written after the grammar
      of Python's conversion.
    - [csv] and [dateutil.parser], whose code is not in the repository, are
      parameters of the functions that call them.  A date that the parser
      returns is naive or carries a time zone, and Python refuses to
      compare a naive date with an aware one.  [plain_csv] and [iso_date]
      stand for the two libraries where an example is run.
    - The global [GRID] is an argument of [determine_grid_point_neighbors],
      the dictionary it builds is a [gmap]. *)

From Stdlib Require Import Reals Lra Lia ZArith List Ascii String.
From Stdlib Require Floats.
From stdpp Require Import base option list strings gmap.

Local Open Scope string_scope.
Local Open Scope list_scope.
Local Open Scope Z_scope.

(* ------------------------------------------------------------------ *)
(** * Exceptions *)

(** The exceptions the modelled code can raise. *)
Inductive exn : Type :=
  | IndexError          (* list index out of range *)
  | ValueError          (* float(), math domain error *)
  | ZeroDivisionError   (* float division by zero *)
  | OverflowError       (* a power too large for a float *)
  | TypeError           (* a naive datetime compared with an aware one *)
  | StopIteration       (* reader.next() on an exhausted reader *)
  | OtherError (name : string). (* raised by csv or dateutil *)

(** The outcome of a Python call: a value, or a raised exception. *)
Inductive result (A : Type) : Type :=
  | Returns (a : A)
  | Raises (e : exn).
Arguments Returns {A} a.
Arguments Raises {A} e.

#[export] Instance result_ret : MRet result := fun A a => Returns a.
#[export] Instance result_bind : MBind result := fun A B f m =>
  match m with
  | Returns a => f a
  | Raises e => Raises e
  end.

(** [returns m]: the call comes back with a value. *)
Definition returns {A} (m : result A) : Prop := exists a, m = Returns a.

(** [record[i]] on a Python list. *)
Definition py_index {A} (l : list A) (i : nat) : result A :=
  match l !! i with
  | Some x => Returns x
  | None => Raises IndexError
  end.

(* ------------------------------------------------------------------ *)
(** * Python floats

    The special values and the numbers.  A number is the real number the
    float stands for, and the arithmetic on numbers is exact: this reading
    knows neither rounding nor overflow, and serves for what does not
    depend on them.  [Binary64], further down, has both. *)

Module PyFloat.

Local Open Scope R_scope.

Inductive float : Type :=
  | Fin (r : R)
  | PInf
  | NInf
  | NaN.

Definition is_nan (x : float) : bool :=
  match x with NaN => true | _ => false end.

(** -x *)
Definition fneg (x : float) : float :=
  match x with
  | Fin r => Fin (- r)
  | PInf => NInf
  | NInf => PInf
  | NaN => NaN
  end.

(** x + y *)
Definition fadd (x y : float) : float :=
  match x, y with
  | NaN, _ | _, NaN => NaN
  | Fin a, Fin b => Fin (a + b)
  | PInf, NInf | NInf, PInf => NaN
  | PInf, _ | _, PInf => PInf
  | NInf, _ | _, NInf => NInf
  end.

(** x - y *)
Definition fsub (x y : float) : float := fadd x (fneg y).

(** The infinity with the sign of [r] times a positive infinity; [nan]
    when [r] is zero. *)
Definition inf_times (r : R) : float :=
  if Req_dec_T r 0 then NaN
  else if Rlt_dec r 0 then NInf else PInf.

(** x * y *)
Definition fmul (x y : float) : float :=
  match x, y with
  | NaN, _ | _, NaN => NaN
  | Fin a, Fin b => Fin (a * b)
  | Fin a, PInf | PInf, Fin a => inf_times a
  | Fin a, NInf | NInf, Fin a => fneg (inf_times a)
  | PInf, PInf | NInf, NInf => PInf
  | PInf, NInf | NInf, PInf => NInf
  end.

(** x / y; Python raises on a zero divisor. *)
Definition fdiv (x y : float) : result float :=
  match y with
  | NaN => Returns NaN
  | Fin b =>
      if Req_dec_T b 0 then Raises ZeroDivisionError
      else Returns (fmul x (Fin (/ b)))
  | PInf | NInf =>
      match x with
      | Fin _ => Returns (Fin 0)
      | _ => Returns NaN
      end
  end.

(** x ** 2 *)
Definition fpow2 (x : float) : float :=
  match x with
  | Fin r => Fin (r ^ 2)
  | PInf | NInf => PInf
  | NaN => NaN
  end.

(** x < y: false as soon as one side is [nan]. *)
Definition flt (x y : float) : bool :=
  match x, y with
  | NaN, _ | _, NaN => false
  | Fin a, Fin b => if Rlt_dec a b then true else false
  | NInf, NInf => false
  | NInf, _ => true
  | _, PInf => match x with PInf => false | _ => true end
  | _, _ => false
  end.

(** x <= y: false as soon as one side is [nan]. *)
Definition fle (x y : float) : bool :=
  match x, y with
  | NaN, _ | _, NaN => false
  | Fin a, Fin b => if Rle_dec a b then true else false
  | NInf, _ => true
  | _, PInf => true
  | _, _ => false
  end.

(** x == y: false as soon as one side is [nan]. *)
Definition feq (x y : float) : bool :=
  match x, y with
  | Fin a, Fin b => if Req_dec_T a b then true else false
  | PInf, PInf | NInf, NInf => true
  | _, _ => false
  end.

(** x != y *)
Definition fne (x y : float) : bool := negb (feq x y).

(** Truth value of a float: every float but zero is true. *)
Definition truthy (x : float) : bool := fne x (Fin 0).

(** ** The [math] module

    CPython's [math_1] wrapper raises [ValueError] ("math domain error")
    when the C function returns a NaN on an argument that is not one. *)

Definition math_sin (x : float) : result float :=
  match x with
  | Fin r => Returns (Fin (sin r))
  | NaN => Returns NaN
  | PInf | NInf => Raises ValueError
  end.

Definition math_cos (x : float) : result float :=
  match x with
  | Fin r => Returns (Fin (cos r))
  | NaN => Returns NaN
  | PInf | NInf => Raises ValueError
  end.

Definition math_sqrt (x : float) : result float :=
  match x with
  | Fin r => if Rlt_dec r 0 then Raises ValueError else Returns (Fin (sqrt r))
  | NaN => Returns NaN
  | PInf => Returns PInf
  | NInf => Raises ValueError
  end.

Definition math_asin (x : float) : result float :=
  match x with
  | Fin r =>
      if Rlt_dec r (-1) then Raises ValueError
      else if Rlt_dec 1 r then Raises ValueError
      else Returns (Fin (asin r))
  | NaN => Returns NaN
  | PInf | NInf => Raises ValueError
  end.

(** [math.radians]: the argument times pi / 180. *)
Definition radians (x : float) : float := fmul x (Fin (PI / 180)).

(** ** [round(x, ndigits)]

    Python 2 rounds to the nearest multiple of 10 ** -ndigits, a tie going
    away from zero; infinities and NaN round to themselves. *)

Definition round_half_away (r : R) : Z :=
  if Rle_dec 0 r then Zfloor (r + / 2) else (- Zfloor (- r + / 2))%Z.

Definition py_round (x : float) (ndigits : nat) : float :=
  match x with
  | Fin r => Fin (IZR (round_half_away (r * 10 ^ ndigits)) / 10 ^ ndigits)
  | _ => x
  end.

End PyFloat.

(* ------------------------------------------------------------------ *)
(** * [float(string)] *)

Module FloatParse.

Import PyFloat.

Definition is_space (c : ascii) : bool :=
  let n := N_of_ascii c in
  (N.eqb n 32 || (N.leb 9 n && N.leb n 13))%bool.

Definition is_digit (c : ascii) : bool :=
  let n := N_of_ascii c in (N.leb 48 n && N.leb n 57)%bool.

Definition digit_value (c : ascii) : Z := Z.of_N (N_of_ascii c) - 48.

Definition to_lower (c : ascii) : ascii :=
  let n := N_of_ascii c in
  if (N.leb 65 n && N.leb n 90)%bool then ascii_of_N (n + 32) else c.

Fixpoint lower (s : string) : string :=
  match s with
  | EmptyString => EmptyString
  | String c s' => String (to_lower c) (lower s')
  end.

Fixpoint lstrip (s : string) : string :=
  match s with
  | String c s' => if is_space c then lstrip s' else s
  | EmptyString => EmptyString
  end.

Definition strip (s : string) : string :=
  String.rev (lstrip (String.rev (lstrip s))).

(** Reads a run of decimal digits: the number read so far, how many digits
    were read, and what is left of the string. *)
Fixpoint read_digits (s : string) (acc : Z) (count : Z) : Z * Z * string :=
  match s with
  | String c s' =>
      if is_digit c then read_digits s' (10 * acc + digit_value c) (count + 1)
      else (acc, count, s)
  | EmptyString => (acc, count, s)
  end.

(** An optional sign: whether it is a minus, and the rest. *)
Definition read_sign (s : string) : bool * string :=
  match s with
  | String "+" s' => (false, s')
  | String "-" s' => (true, s')
  | _ => (false, s)
  end.

(** The exponent part, when the rest of the string is one: "e" or "E", an
    optional sign and at least one digit, up to the end of the string. *)
Definition read_exponent (s : string) : option Z :=
  match s with
  | EmptyString => Some 0
  | String c s' =>
      if ascii_dec (to_lower c) "e" then
        let '(neg, s1) := read_sign s' in
        let '(e, n, s2) := read_digits s1 0 0 in
        if (0 <? n) && bool_decide (s2 = EmptyString)
        then Some (if neg then - e else e) else None
      else None
  end.

(** What a float literal spells: an infinity, a NaN, or the decimal
    m * 10 ^ e with m >= 0, each with a sign. *)
Inductive literal : Type :=
  | LInf (neg : bool)
  | LNaN
  | LDec (neg : bool) (m e : Z).

(** The literal a byte string spells for [float()]: surrounding white
    space is dropped; "inf", "infinity" and "nan" are read in any case and
    with a sign; a decimal numeral needs a digit before or after its
    point; nothing may follow. *)
Definition read_literal (s : string) : option literal :=
  let '(neg, body) := read_sign (strip s) in
  let name := lower body in
  if bool_decide (name = "inf") || bool_decide (name = "infinity")
  then Some (LInf neg)
  else if bool_decide (name = "nan") then Some LNaN
  else
    let '(i, ni, s1) := read_digits body 0 0 in
    let '(m, n, s2) :=
      match s1 with
      | String "." s1' => read_digits s1' i ni
      | _ => (i, ni, s1)
      end in
    if 0 <? n then
      match read_exponent s2 with
      | Some e => Some (LDec neg m (e - (n - ni)))
      | None => None
      end
    else None.

(** The real number m * 10 ^ e. *)
Definition dec_value (m e : Z) : R :=
  if 0 <=? e then IZR (m * 10 ^ e) else (IZR m / IZR (10 ^ (- e)))%R.

(** m * 10 ^ e is at most 2 ^ -1075: it rounds to zero in binary64. *)
Definition underflows (m e : Z) : bool :=
  if 0 <=? e then m =? 0 else m * 2 ^ 1075 <=? 10 ^ (- e).

(** m * 10 ^ e is at least 2 ^ 1024 - 2 ^ 970: it rounds to infinity. *)
Definition overflows (m e : Z) : bool :=
  if 0 <=? e then 2 ^ 1024 - 2 ^ 970 <=? m * 10 ^ e
  else (2 ^ 1024 - 2 ^ 970) * 10 ^ (- e) <=? m.

(** The float a literal stands for.  A decimal too small for binary64 is
    zero and one too large is an infinity, as the conversion of Python
    gives them; in between the decimal is kept as it is. *)
Definition float_of_literal (l : literal) : float :=
  match l with
  | LInf neg => if neg then NInf else PInf
  | LNaN => NaN
  | LDec neg m e =>
      if underflows m e then Fin 0
      else if overflows m e then (if neg then NInf else PInf)
      else Fin (if neg then (- dec_value m e)%R else dec_value m e)
  end.

(** [float(s)] for a byte string [s]; [ValueError] when [s] spells no
    float. *)
Definition py_float (s : string) : result float :=
  match read_literal s with
  | Some l => Returns (float_of_literal l)
  | None => Raises ValueError
  end.

End FloatParse.

(* ------------------------------------------------------------------ *)
(** * Station records *)

Import PyFloat FloatParse.

(** The dates [dateutil.parser.parse] returns: the fields of a [datetime]
    and, when the string names a time zone, its offset from UTC in minutes.
    A datetime with no offset is naive, one with an offset is aware. *)
Record datetime : Type := Datetime {
  year : Z; month : Z; day : Z;
  hour : Z; minute : Z; second : Z; microsecond : Z;
  utcoffset : option Z
}.

Definition aware (d : datetime) : bool :=
  match utcoffset d with Some _ => true | None => false end.

(** a < b on the fields of two dates, read in order. *)
Fixpoint lex_lt (a b : list Z) : bool :=
  match a, b with
  | x :: a', y :: b' => (x <? y) || ((x =? y) && lex_lt a' b')
  | [], _ :: _ => true
  | _, [] => false
  end.

Definition datetime_fields (d : datetime) : list Z :=
  [year d; month d; day d; hour d; minute d; second d; microsecond d].

(** a < b for two datetimes of one time zone, or of none: the fields are
    compared as they are. *)
Definition fields_lt (a b : datetime) : bool :=
  lex_lt (datetime_fields a) (datetime_fields b).

Definition is_leap (y : Z) : bool :=
  (y mod 4 =? 0) && (negb (y mod 100 =? 0) || (y mod 400 =? 0)).

(** The days before January 1 of year [y], counted from year 1. *)
Definition days_before_year (y : Z) : Z :=
  let y := y - 1 in y * 365 + y / 4 - y / 100 + y / 400.

(** The days of year [y] before the first of month [m]. *)
Definition days_before_month (y m : Z) : Z :=
  nth (Z.to_nat m) [0; 0; 31; 59; 90; 120; 151; 181; 212; 243; 273; 304; 334] 0
  + (if (2 <? m) && is_leap y then 1 else 0).

(** The ordinal of a day, January 1 of year 1 being day 1. *)
Definition ymd_to_ord (y m d : Z) : Z :=
  days_before_year y + days_before_month y m + d.

(** The instant of an aware datetime, in microseconds of UTC. *)
Definition utc_microseconds (d : datetime) (offset : Z) : Z :=
  (((ymd_to_ord (year d) (month d) (day d) * 24 + hour d) * 60
    + minute d - offset) * 60 + second d) * 1000000 + microsecond d.

(** a < b on two datetimes.  Two naive datetimes, or two aware ones with
    the same offset, are compared field by field; two aware ones with
    different offsets by their instants; a naive datetime and an aware one
    cannot be compared: [TypeError]. *)
Definition datetime_lt (a b : datetime) : result bool :=
  match utcoffset a, utcoffset b with
  | None, None => Returns (fields_lt a b)
  | Some oa, Some ob =>
      if oa =? ob then Returns (fields_lt a b)
      else Returns (utc_microseconds a oa <? utc_microseconds b ob)
  | _, _ => Raises TypeError
  end.

(** The tuple [(station_id, latitude, longitude)]. *)
Record Station : Type := mkStation {
  station_id : string;
  latitude : float;
  longitude : float
}.

(** [sep.join(l)] *)
Fixpoint join (sep : string) (l : list string) : string :=
  match l with
  | [] => ""
  | [x] => x
  | x :: l' => x ++ sep ++ join sep l'
  end.

(** [u.encode('ascii', 'ignore')]: the characters outside ASCII are
    dropped. *)
Fixpoint encode_ascii_ignore (u : string) : string :=
  match u with
  | EmptyString => EmptyString
  | String c u' =>
      if N.ltb (N_of_ascii c) 128 then String c (encode_ascii_ignore u')
      else encode_ascii_ignore u'
  end.

(** [valid_nonzero_float], lines 13-36: the float the string spells when
    there is one and it is not zero, [None] otherwise. *)
Definition valid_nonzero_float (s : string) : result (option float) :=
  match py_float s with
  | Returns number =>
      if fne number (Fin 0) then Returns (Some number) else Returns None
  | Raises ValueError => Returns None
  | Raises e => Raises e
  end.

(** [not v] for a value that is a float or [None]. *)
Definition py_not (v : option float) : bool :=
  match v with
  | None => true
  | Some x => negb (truthy x)
  end.

(** The region codes of line 59: the header, Canada, Mexico, US Virgin
    Islands and Guam. *)
Definition excluded_states : list string :=
  ["State Code"; "CC"; "80"; "78"; "66"].

(** The datums of line 72. *)
Definition accepted_datums : list string := ["WGS84"; "NAD83"].

Section RecordValidator.

(** [csv.reader(f, delimiter=',').next()] on the text of [f]: the first
    record of the text, split into fields. *)
Variable csv_reader_next : string -> result (list string).

(** [dateutil.parser.parse] *)
Variable parser_parse : string -> result datetime.

(** Lines 57-85 of [parse_station_record]: what the function does with
    the record once the line is split into fields. *)
Definition validate_record (record : list string)
  : result (option Station) :=
  state_id ← py_index record 0;
  if bool_decide (state_id ∈ excluded_states) then Returns None
  else
    county_id ← py_index record 1;
    site_number ← py_index record 2;
    let station_id := join "|" [state_id; county_id; site_number] in
    latitude ← py_index record 3 ≫= valid_nonzero_float;
    longitude ← py_index record 4 ≫= valid_nonzero_float;
    if py_not latitude || py_not longitude then Returns None
    else
      match latitude, longitude with
      | Some latitude, Some longitude =>
          let station := mkStation station_id latitude longitude in
          datum ← py_index record 5;
          if negb (bool_decide (datum ∈ accepted_datums)) then Returns None
          else
            closed ← py_index record 10;
            if negb (bool_decide (closed = "")) then
              closed_date ← parser_parse closed;
              history_span ← parser_parse "1980-01-01";
              before ← datetime_lt closed_date history_span;
              if (before : bool) then Returns None else Returns (Some station)
            else Returns (Some station)
      | _, _ => Returns None (* not reached: [not None] is true *)
      end.

(** [parse_station_record], lines 39-85. *)
Definition parse_station_record (station_record : string)
  : result (option Station) :=
  record ← csv_reader_next (encode_ascii_ignore station_record);
  validate_record record.

End RecordValidator.

(** Two decimal digits, as a number. *)
Definition two_digits (a b : ascii) : option Z :=
  if is_digit a && is_digit b then Some (10 * digit_value a + digit_value b)
  else None.

(** The day a string written YYYY-MM-DD names. *)
Definition read_day (s : list ascii) : option (Z * Z * Z) :=
  match s with
  | [y1; y2; y3; y4; c1; m1; m2; c2; d1; d2] =>
      if Ascii.eqb c1 "-" && Ascii.eqb c2 "-" then
        yh ← two_digits y1 y2;
        yl ← two_digits y3 y4;
        m ← two_digits m1 m2;
        d ← two_digits d1 d2;
        let y := 100 * yh + yl in
        if (1 <=? y) && (1 <=? m) && (m <=? 12) && (1 <=? d) && (d <=? 31)
        then Some (y, m, d) else None
      else None
  | _ => None
  end.

(** The time of day a string written HH:MM:SS names. *)
Definition read_time (s : list ascii) : option (Z * Z * Z) :=
  match s with
  | [h1; h2; c1; m1; m2; c2; s1; s2] =>
      if Ascii.eqb c1 ":" && Ascii.eqb c2 ":" then
        h ← two_digits h1 h2;
        m ← two_digits m1 m2;
        s ← two_digits s1 s2;
        if (h <=? 23) && (m <=? 59) && (s <=? 59) then Some (h, m, s)
        else None
      else None
  | _ => None
  end.

(** A date reader for two of the forms [dateutil] reads.  A calendar date
    YYYY-MM-DD, as the registry holds them, is that day at midnight, a naive
    datetime; a time stamp YYYY-MM-DDTHH:MM:SSZ is an aware datetime, in
    UTC.  It stands for [parser.parse] where an example is run. *)
Definition iso_date (s : string) : result datetime :=
  let text := list_ascii_of_string s in
  match read_day (take 10 text), drop 10 text with
  | Some (y, m, d), [] => Returns (Datetime y m d 0 0 0 0 None)
  | Some (y, m, d), t :: rest =>
      match read_time (take 8 rest), drop 8 rest with
      | Some (h, mi, sec), [z] =>
          if Ascii.eqb t "T" && Ascii.eqb z "Z"
          then Returns (Datetime y m d h mi sec 0 (Some 0))
          else Raises ValueError
      | _, _ => Raises ValueError
      end
  | None, _ => Raises ValueError
  end.

(** The fields of a line that holds no quote and no line break: what is
    between its commas. *)
Fixpoint split_fields (line : string) : list string :=
  match line with
  | EmptyString => [""]
  | String c line' =>
      if Ascii.eqb c "," then "" :: split_fields line'
      else
        match split_fields line' with
        | field :: fields => String c field :: fields
        | [] => [String c ""]
        end
  end.

(** A reader for such lines; it stands for [csv.reader] where an example
    is run.  On an empty text there is no record to read. *)
Definition plain_csv (text : string) : result (list string) :=
  if bool_decide (text = "") then Raises StopIteration
  else Returns (split_fields text).

(* ------------------------------------------------------------------ *)
(** * Great-circle distance *)

(** [calc_distance], lines 88-117: the haversine formula on a sphere of
    radius 3959 miles, on [PyFloat]. *)
Definition calc_distance (lat1 lon1 lat2 lon2 : float) : result float :=
  let R := Fin 3959 in
  let delta_lat := radians (fsub lat2 lat1) in
  let delta_lon := radians (fsub lon2 lon1) in
  let lat1 := radians lat1 in
  let lat2 := radians lat2 in
  half_lat ← fdiv delta_lat (Fin 2);
  sin_lat ← math_sin half_lat;
  cos1 ← math_cos lat1;
  cos2 ← math_cos lat2;
  half_lon ← fdiv delta_lon (Fin 2);
  sin_lon ← math_sin half_lon;
  let a := fadd (fpow2 sin_lat) (fmul (fmul cos1 cos2) (fpow2 sin_lon)) in
  root ← math_sqrt a;
  angle ← math_asin root;
  let c := fmul (Fin 2) angle in
  Returns (fmul R c).

(* ------------------------------------------------------------------ *)
(** * Great-circle distance, in binary64

    [calc_distance] once more, on the floats of the machine: the
    arithmetic of Python's floats is that of [PrimFloat], rounding and
    overflow included, and [sqrt] is the correctly rounded one.  The
    functions [sin], [cos], [asin] and [pow] of the C library, whose code
    is not in the repository, are parameters. *)

Module Binary64.

Import PrimFloat.
Local Open Scope float_scope.
#[local] Set Warnings "-inexact-float".

(** pi, and pi / 180 as [math.radians] has it. *)
Definition pi : float := 0x1.921fb54442d18p+1.
Definition degToRad : float := pi / 180.

(** [math.radians] *)
Definition radians (x : float) : float := x * degToRad.

(** x / y; Python raises on a zero divisor. *)
Definition float_div (x y : float) : result float :=
  if y =? 0 then Raises ZeroDivisionError else Returns (x / y).

(** CPython's [math_1], through which [sin], [cos], [sqrt] and [asin] are
    called: a NaN that comes from an argument that is none, or an infinity
    that comes from a finite argument, is a [ValueError] ("math domain
    error"). *)
Definition math_1 (func : float -> float) (x : float) : result float :=
  let r := func x in
  if is_nan r && negb (is_nan x) then Raises ValueError
  else if is_infinity r && is_finite x then Raises ValueError
  else Returns r.

Section Distance.

(** The functions of the C library. *)
Variables c_sin c_cos c_asin : float -> float.
Variable c_pow : float -> float -> float.

(** x ** 2: NaN, the infinities, zero and one are settled by Python, and
    [pow] is called on the absolute value of any other number. *)
Definition float_pow2 (x : float) : result float :=
  if is_nan x then Returns x
  else if is_infinity x then Returns infinity
  else if x =? 0 then Returns 0
  else
    let v := if x <? 0 then - x else x in
    if v =? 1 then Returns 1
    else
      let r := c_pow v 2 in
      if is_infinity r then Raises OverflowError else Returns r.

(** [calc_distance], lines 88-117. *)
Definition calc_distance (lat1 lon1 lat2 lon2 : float) : result float :=
  let R := 3959 in
  let delta_lat := radians (lat2 - lat1) in
  let delta_lon := radians (lon2 - lon1) in
  let lat1 := radians lat1 in
  let lat2 := radians lat2 in
  half_lat ← float_div delta_lat 2;
  sin_lat ← math_1 c_sin half_lat;
  sq_lat ← float_pow2 sin_lat;
  cos1 ← math_1 c_cos lat1;
  cos2 ← math_1 c_cos lat2;
  half_lon ← float_div delta_lon 2;
  sin_lon ← math_1 c_sin half_lon;
  sq_lon ← float_pow2 sin_lon;
  let a := sq_lat + cos1 * cos2 * sq_lon in
  root ← math_1 sqrt a;
  angle ← math_1 c_asin root;
  let c := 2 * angle in
  Returns (R * c).

(** Lines 110-115 on their own: the term [a] that line 116 takes the
    square root of. *)
Definition haversine_term (lat1 lon1 lat2 lon2 : float) : result float :=
  let delta_lat := radians (lat2 - lat1) in
  let delta_lon := radians (lon2 - lon1) in
  let lat1 := radians lat1 in
  let lat2 := radians lat2 in
  half_lat ← float_div delta_lat 2;
  sin_lat ← math_1 c_sin half_lat;
  sq_lat ← float_pow2 sin_lat;
  cos1 ← math_1 c_cos lat1;
  cos2 ← math_1 c_cos lat2;
  half_lon ← float_div delta_lon 2;
  sin_lon ← math_1 c_sin half_lon;
  sq_lon ← float_pow2 sin_lon;
  Returns (sq_lat + cos1 * cos2 * sq_lon).

End Distance.

(** ** The C library on the arguments of the examples

    What the GNU C library returns, on x86-64, at the arguments that the
    two examples below reach; [glibc_sin], [glibc_cos], [glibc_pow] and
    [glibc_asin] stand for the library where an example is run.  An
    argument that no example reaches has no entry. *)

Fixpoint recorded (table : list (float * float)) (x : float) : float :=
  match table with
  | [] => nan
  | (argument, value) :: table' =>
      if x =? argument then value else recorded table' x
  end.

Definition glibc_sin : float -> float :=
  recorded
    [(-1.019001389738822, -0.8515849585563654);
     (1.570796325922232, 1);
     (0.003785619147575683, 0.0037856101056861417);
     (0, 0)].

Definition glibc_cos : float -> float :=
  recorded
    [(1.0190013906114863, 0.5242166132253084);
     (-1.019001388866157, 0.5242166147116045);
     (0.6981317007977318, 0.766044443118978);
     (0.7057029390928832, 0.7611558353222599)].

Definition glibc_pow (x y : float) : float :=
  if y =? 2 then
    recorded
      [(0.8515849585563654, 0.7251969416394466);
       (0.0037856101056861417, 1.4330843872273041e-05)] x
  else nan.

(** [asin] has no value outside [-1, 1]: the library returns NaN there. *)
Definition glibc_asin (x : float) : float :=
  if (1 <? x) || (x <? -1) then nan
  else recorded [(0.0037856101056861417, 0.003785619147575683)] x.

End Binary64.

(* ------------------------------------------------------------------ *)
(** * Neighbouring grid points *)

(** One entry of [GRID]: a dictionary with the keys "id", "lat", "lon". *)
Record GridPoint : Type := mkGridPoint {
  grid_id : string;
  grid_lat : float;
  grid_lon : float
}.

Definition d_cutoff : float := Fin 30.
Definition precision : nat := 1.

(** The loop of lines 140-147 over the grid points still to visit, from
    the dictionary built so far. *)
Fixpoint scan_grid (station : Station) (grid : list GridPoint)
    (adjacent_grid_points : gmap string float) : result (gmap string float) :=
  match grid with
  | [] => Returns adjacent_grid_points
  | g :: grid' =>
      d ← calc_distance (grid_lat g) (grid_lon g)
                        (latitude station) (longitude station);
      scan_grid station grid'
        (if flt d d_cutoff
         then <[grid_id g := py_round d precision]> adjacent_grid_points
         else adjacent_grid_points)
  end.

(** [determine_grid_point_neighbors], lines 120-148; the global [GRID] is
    its first argument. *)
Definition determine_grid_point_neighbors (GRID : list GridPoint)
    (rdd : Station) : result (string * gmap string float) :=
  adjacent_grid_points ← scan_grid rdd GRID ∅;
  Returns (station_id rdd, adjacent_grid_points).

(* ------------------------------------------------------------------ *)
(** * The job *)

(** [rdd.map(f)]: [f] on every element, in order.  An exception raised on
    one element fails the job; the first one in the list is reported. *)
Fixpoint rdd_map {A B : Type} (f : A -> result B) (rdd : list A)
    : result (list B) :=
  match rdd with
  | [] => Returns []
  | x :: rdd' =>
      y ← f x;
      ys ← rdd_map f rdd';
      Returns (y :: ys)
  end.

(** [rdd.filter(lambda line: line is not None)] *)
Definition filter_not_none {A : Type} (rdd : list (option A)) : list A :=
  omap (fun x => x) rdd.

(** [rdd.collectAsMap()]: the pairs of the RDD in a dictionary; of two
    pairs with the same key, the later one stays. *)
Definition collectAsMap {V : Type} (rdd : list (string * V))
    : gmap string V :=
  fold_left (fun m kv => <[kv.1 := kv.2]> m) rdd ∅.

Section Job.

Variable csv_reader_next : string -> result (list string).
Variable parser_parse : string -> result datetime.

(** Lines 180-183 of [main]: the dictionary [stations] for the grid and
    the lines of the registry file.  The partitions of the RDD are read as
    one list. *)
Definition stations (GRID : list GridPoint) (data_rdd : list string)
    : result (gmap string (gmap string float)) :=
  parsed ← rdd_map (parse_station_record csv_reader_next parser_parse)
                   data_rdd;
  neighbors ← rdd_map (determine_grid_point_neighbors GRID)
                      (filter_not_none parsed);
  Returns (collectAsMap neighbors).

End Job.

(* ------------------------------------------------------------------ *)
(** * Definitions used in the statements *)

(** A string that [float()] cannot read, or reads as zero. *)
Definition unparsable_or_zero (s : string) : Prop :=
  (exists e, py_float s = Raises e) \/ py_float s = Returns (Fin 0).

(** January 1, 1980, at midnight. *)
Definition history_cutoff : datetime := Datetime 1980 1 1 0 0 0 0 None.

(** The literals whose float is not zero. *)
Definition nonzero_literal (l : literal) : bool :=
  match l with
  | LDec _ m e => negb (underflows m e)
  | _ => true
  end.

(** What is left of [validate_record] once the region code has passed
    and the two coordinates have been read: lines 71-85. *)
Definition after_coordinates (parser_parse : string -> result datetime)
    (station : Station) (record : list string) : result (option Station) :=
  datum ← py_index record 5;
  if negb (bool_decide (datum ∈ accepted_datums)) then Returns None
  else
    closed ← py_index record 10;
    if negb (bool_decide (closed = "")) then
      closed_date ← parser_parse closed;
      history_span ← parser_parse "1980-01-01";
      before ← datetime_lt closed_date history_span;
      if (before : bool) then Returns None else Returns (Some station)
    else Returns (Some station).

(** The haversine term [a] of line 114 for coordinates in degrees. *)
Definition haversine (lat1 lon1 lat2 lon2 : R) : R :=
  (sin ((lat2 + - lat1) * (PI / 180) * / 2) ^ 2 +
  cos (lat1 * (PI / 180)) * cos (lat2 * (PI / 180)) *
  sin ((lon2 + - lon1) * (PI / 180) * / 2) ^ 2)%R.

(** Lines 116-117: the distance for a haversine term [a]. *)
Definition distance_of_term (a : float) : result float :=
  root ← math_sqrt a;
  angle ← math_asin root;
  Returns (fmul (Fin 3959) (fmul (Fin 2) angle)).

(** What [sin(radians(y - x) / 2.0) ** 2] comes to: the square of the sine
    of half the difference, NaN, or a [ValueError]. *)
Definition squared_half_sine (x y : float) : result float :=
  sin_half ← math_sin (fmul (radians (fsub y x)) (Fin (/ 2)%R));
  Returns (fpow2 sin_half).

(** [c in s] for a character and a string. *)
Fixpoint contains (c : ascii) (s : string) : bool :=
  match s with
  | EmptyString => false
  | String c' s' => Ascii.eqb c c' || contains c s'
  end.

(** A grid point whose coordinates are finite numbers. *)
Definition finite_point (g : GridPoint) : Prop :=
  exists lat lon : R, grid_lat g = Fin lat /\ grid_lon g = Fin lon.

(** Settles a decidable statement on closed terms by running its
    decision procedure. *)
Ltac by_running := refine (bool_decide_unpack _ _); vm_compute; exact I.

(* ------------------------------------------------------------------ *)
(** * Properties of the record validator *)

Arguments valid_nonzero_float : simpl never.
Arguments py_not : simpl never.
Arguments py_float : simpl never.
Arguments datetime_lt : simpl never.

Lemma py_index_returns {A} (l : list A) (i : nat) (x : A) :
  py_index l i = Returns x <-> l !! i = Some x.
Proof.
  unfold py_index. destruct (l !! i); split; intros H; inversion H; auto.
Qed.

(** [float()] raises nothing but [ValueError]. *)
Lemma py_float_raises (s : string) (e : exn) :
  py_float s = Raises e -> e = ValueError.
Proof.
  unfold py_float. destruct (read_literal s); intros H; inversion H; auto.
Qed.

(** [valid_nonzero_float] never raises: its [except] clause catches all
    that [float()] can raise. *)
Lemma valid_nonzero_float_returns (s : string) :
  returns (valid_nonzero_float s).
Proof.
  unfold valid_nonzero_float, returns.
  destruct (py_float s) as [x|e] eqn:E.
  - destruct (fne x (Fin 0)); eauto.
  - apply py_float_raises in E as ->. eauto.
Qed.

Lemma feq_zero (x : float) : feq x (Fin 0) = true <-> x = Fin 0.
Proof.
  destruct x as [r| | |]; simpl; try (split; discriminate).
  destruct (Req_dec_T r 0) as [->|Hr]; split; auto; try discriminate.
  intros H. inversion H. contradiction.
Qed.

(** [valid_nonzero_float] gives [None] exactly when the string spells no
    float or spells zero. *)
Lemma valid_nonzero_float_None (s : string) :
  valid_nonzero_float s = Returns None <->
  (exists e, py_float s = Raises e) \/ py_float s = Returns (Fin 0).
Proof.
  unfold valid_nonzero_float, fne.
  destruct (py_float s) as [x|e] eqn:E.
  - destruct (feq x (Fin 0)) eqn:Z; simpl.
    + apply feq_zero in Z as ->. split; auto.
    + split; [discriminate|]. intros [[e He]|H]; [discriminate|].
      inversion H; subst. rewrite (proj2 (feq_zero _) eq_refl) in Z.
      discriminate.
  - apply py_float_raises in E as ->. split; eauto.
Qed.

(** [valid_nonzero_float] gives a float exactly when the string spells it
    and it is not zero. *)
Lemma valid_nonzero_float_Some (s : string) (x : float) :
  valid_nonzero_float s = Returns (Some x) <->
  py_float s = Returns x /\ x <> Fin 0.
Proof.
  unfold valid_nonzero_float, fne.
  destruct (py_float s) as [y|e] eqn:E.
  - destruct (feq y (Fin 0)) eqn:Z; simpl.
    + apply feq_zero in Z as ->. split; [discriminate|].
      intros [H Hx]. inversion H; subst. contradiction.
    + split.
      * intros H. inversion H; subst. split; auto.
        intros ->. rewrite (proj2 (feq_zero _) eq_refl) in Z. discriminate.
      * intros [H _]. inversion H; subst. reflexivity.
  - apply py_float_raises in E as ->. split; [discriminate|].
    intros [H _]. discriminate.
Qed.

Lemma py_not_Some (x : float) : x <> Fin 0 -> py_not (Some x) = false.
Proof.
  intros Hx. unfold py_not, truthy, fne.
  destruct (feq x (Fin 0)) eqn:Z; auto.
  apply feq_zero in Z. contradiction.
Qed.

(** A decimal that does not underflow is not zero. *)
Lemma dec_value_nonzero (m e : Z) :
  underflows m e = false -> dec_value m e <> 0%R.
Proof.
  unfold underflows, dec_value. destruct (0 <=? e) eqn:He; intros H.
  - apply Z.leb_le in He. apply Z.eqb_neq in H.
    apply not_0_IZR. apply Z.neq_mul_0. split; auto.
    apply Z.pow_nonzero; lia.
  - apply Z.leb_gt in He. apply Z.leb_gt in H.
    assert (Hp : 0 < 10 ^ (- e)) by (apply Z.pow_pos_nonneg; lia).
    assert (Hm : 0 < m) by nia.
    apply IZR_lt in Hp, Hm. intros Hq.
    apply Rmult_integral in Hq as [Hq|Hq]; [lra|].
    apply Rinv_neq_0_compat in Hq; auto. lra.
Qed.

Lemma float_of_literal_nonzero (l : literal) :
  nonzero_literal l = true -> float_of_literal l <> Fin 0.
Proof.
  destruct l as [neg| |neg m e]; simpl.
  - destruct neg; discriminate.
  - discriminate.
  - intros H. apply negb_true_iff in H. rewrite H.
    apply dec_value_nonzero in H.
    destruct (overflows m e); [destruct neg; discriminate|].
    intros Hq. inversion Hq as [Hr]. destruct neg; lra.
Qed.

(** How [valid_nonzero_float] runs on a string that spells a literal. *)
Lemma valid_nonzero_float_literal (s : string) (l : literal) :
  read_literal s = Some l -> nonzero_literal l = true ->
  valid_nonzero_float s = Returns (Some (float_of_literal l)).
Proof.
  intros Hs Hl. apply valid_nonzero_float_Some. split.
  - unfold py_float. rewrite Hs. reflexivity.
  - apply float_of_literal_nonzero, Hl.
Qed.

Lemma validate_record_excluded parser_parse (state : string)
    (rest : list string) :
  state ∈ excluded_states ->
  validate_record parser_parse (state :: rest) = Returns None.
Proof.
  intros H. unfold validate_record. simpl.
  rewrite bool_decide_eq_true_2; auto.
Qed.

Lemma validate_record_unfold parser_parse (state county site lat lon : string)
    (rest : list string) :
  state ∉ excluded_states ->
  validate_record parser_parse
    (state :: county :: site :: lat :: lon :: rest) =
  match valid_nonzero_float lat, valid_nonzero_float lon with
  | Returns (Some la), Returns (Some lo) =>
      after_coordinates parser_parse
        (mkStation (state ++ "|" ++ county ++ "|" ++ site) la lo)
        (state :: county :: site :: lat :: lon :: rest)
  | Returns _, Returns _ => Returns None
  | Raises e, _ => Raises e
  | _, Raises e => Raises e
  end.
Proof.
  intros H. unfold validate_record. simpl.
  rewrite bool_decide_eq_false_2; auto.
  destruct (valid_nonzero_float lat) as [[la|]|e] eqn:Ela; simpl;
    destruct (valid_nonzero_float lon) as [[lo|]|e'] eqn:Elo; simpl;
    try reflexivity.
  - apply valid_nonzero_float_Some in Ela as [_ Hla].
    apply valid_nonzero_float_Some in Elo as [_ Hlo].
    rewrite (py_not_Some la), (py_not_Some lo); auto.
  - apply valid_nonzero_float_Some in Ela as [_ Hla].
    rewrite (py_not_Some la); auto.
Qed.

Lemma after_coordinates_Some parser_parse station record st :
  after_coordinates parser_parse station record = Returns (Some st) ->
  st = station.
Proof.
  unfold after_coordinates.
  destruct (py_index record 5) as [datum|e]; simpl; [|discriminate].
  destruct (bool_decide (datum ∈ accepted_datums)); simpl; [|discriminate].
  destruct (py_index record 10) as [closed|e]; simpl; [|discriminate].
  destruct (bool_decide (closed = "")); simpl.
  - intros H. inversion H. reflexivity.
  - destruct (parser_parse closed) as [d|e]; simpl; [|discriminate].
    destruct (parser_parse "1980-01-01") as [h|e]; simpl; [|discriminate].
    destruct (datetime_lt d h) as [[|]|e]; simpl; intros H; inversion H.
    reflexivity.
Qed.

(** How lines 71-85 run on a record of eleven fields or more whose datum
    is accepted. *)
Lemma after_coordinates_run parser_parse station
    (f1 f2 f3 f4 f5 datum f7 f8 f9 f10 closed : string) (rest : list string) :
  datum ∈ accepted_datums ->
  after_coordinates parser_parse station
    (f1 :: f2 :: f3 :: f4 :: f5 :: datum
       :: f7 :: f8 :: f9 :: f10 :: closed :: rest) =
  if bool_decide (closed = "") then Returns (Some station)
  else
    closed_date ← parser_parse closed;
    history_span ← parser_parse "1980-01-01";
    before ← datetime_lt closed_date history_span;
    if (before : bool) then Returns None else Returns (Some station).
Proof.
  intros Hd. unfold after_coordinates. simpl.
  rewrite (bool_decide_eq_true_2 _ Hd). simpl.
  destruct (bool_decide (closed = "")); reflexivity.
Qed.

(** [parse_station_record] on a line is [validate_record] on the record
    that the csv reader finds in it. *)
Lemma parse_station_record_fields csv_reader_next parser_parse
    (station_record : string) (record : list string) :
  csv_reader_next (encode_ascii_ignore station_record) = Returns record ->
  parse_station_record csv_reader_next parser_parse station_record =
  validate_record parser_parse record.
Proof.
  intros H. unfold parse_station_record. rewrite H. reflexivity.
Qed.

(** C8.  A record whose first field is one of the excluded region codes
    ("State Code", "CC", "80", "78", "66") is rejected, whatever its other
    fields are and however many there are; so is the line it was read
    from. *)
Theorem excluded_region_rejected
    (csv_reader_next : string -> result (list string))
    (parser_parse : string -> result datetime)
    (station_record state : string) (rest : list string) :
  state ∈ excluded_states ->
  validate_record parser_parse (state :: rest) = Returns None /\
  (csv_reader_next (encode_ascii_ignore station_record)
     = Returns (state :: rest) ->
   parse_station_record csv_reader_next parser_parse station_record
     = Returns None).
Proof.
  intros Hstate.
  assert (Hrec : validate_record parser_parse (state :: rest) = Returns None).
  { unfold validate_record. simpl.
    rewrite (bool_decide_eq_true_2 _ Hstate). reflexivity. }
  split; [exact Hrec|].
  intros Hcsv.
  rewrite (parse_station_record_fields _ _ _ _ Hcsv). exact Hrec.
Qed.

(** C9.  In a record that the region filter lets through, a latitude
    field or a longitude field that [float()] cannot read, or reads as
    zero, has the record rejected, whatever the other coordinate and the
    other fields are. *)
Theorem invalid_coordinate_rejected
    (parser_parse : string -> result datetime)
    (state county site lat lon : string) (rest : list string) :
  state ∉ excluded_states ->
  unparsable_or_zero lat \/ unparsable_or_zero lon ->
  validate_record parser_parse (state :: county :: site :: lat :: lon :: rest)
  = Returns None.
Proof.
  intros Hstate Hbad.
  rewrite validate_record_unfold by exact Hstate.
  destruct (valid_nonzero_float_returns lat) as [la Hla].
  destruct (valid_nonzero_float_returns lon) as [lo Hlo].
  rewrite Hla, Hlo.
  destruct Hbad as [Hbad|Hbad]; apply valid_nonzero_float_None in Hbad.
  - rewrite Hbad in Hla. inversion Hla; subst. destruct lo; reflexivity.
  - rewrite Hbad in Hlo. inversion Hlo; subst. destruct la; reflexivity.
Qed.

(** Whatever record comes back as a station, the identifier is the
    region, subregion and site fields joined by "|", and the latitude and
    longitude are the floats that [float()] reads in the fourth and fifth
    fields. *)
Lemma returned_station_fields
    (parser_parse : string -> result datetime)
    (record : list string) (st : Station) :
  validate_record parser_parse record = Returns (Some st) ->
  exists state county site lat lon rest,
    record = state :: county :: site :: lat :: lon :: rest /\
    station_id st = (state ++ "|" ++ county ++ "|" ++ site)%string /\
    py_float lat = Returns (latitude st) /\
    py_float lon = Returns (longitude st).
Proof.
  intros H.
  destruct record as [|state record]; [discriminate H|].
  destruct (decide (state ∈ excluded_states)) as [Hin|Hout].
  { rewrite validate_record_excluded in H by exact Hin. discriminate. }
  destruct record as [|county [|site [|lat [|lon rest]]]];
    try (unfold validate_record in H; simpl in H;
         rewrite bool_decide_eq_false_2 in H by exact Hout;
         try destruct (valid_nonzero_float lat);
         discriminate H).
  rewrite validate_record_unfold in H by exact Hout.
  destruct (valid_nonzero_float lat) as [[la|]|e] eqn:Ela;
    destruct (valid_nonzero_float lon) as [[lo|]|e'] eqn:Elo;
    try discriminate H.
  apply after_coordinates_Some in H. subst st.
  apply valid_nonzero_float_Some in Ela as [Ela _].
  apply valid_nonzero_float_Some in Elo as [Elo _].
  exists state, county, site, lat, lon, rest. simpl. auto.
Qed.

(** How [validate_record] runs on a record of eleven fields or more whose
    region, coordinates and datum pass. *)
Lemma validate_record_run parser_parse
    (state county site lat lon datum f7 f8 f9 f10 closed : string)
    (rest : list string) (la lo : float) :
  state ∉ excluded_states ->
  valid_nonzero_float lat = Returns (Some la) ->
  valid_nonzero_float lon = Returns (Some lo) ->
  datum ∈ accepted_datums ->
  let station := mkStation (state ++ "|" ++ county ++ "|" ++ site) la lo in
  validate_record parser_parse
    (state :: county :: site :: lat :: lon :: datum
       :: f7 :: f8 :: f9 :: f10 :: closed :: rest) =
  if bool_decide (closed = "") then Returns (Some station)
  else
    closed_date ← parser_parse closed;
    history_span ← parser_parse "1980-01-01";
    before ← datetime_lt closed_date history_span;
    if (before : bool) then Returns None else Returns (Some station).
Proof.
  intros Hstate Hla Hlo Hdatum station.
  rewrite validate_record_unfold by exact Hstate.
  rewrite Hla, Hlo.
  apply after_coordinates_run, Hdatum.
Qed.

(** Two datetimes can be compared exactly when both are naive or both are
    aware. *)
Lemma datetime_lt_returns (a b : datetime) :
  returns (datetime_lt a b) <-> aware a = aware b.
Proof.
  unfold datetime_lt, aware, returns.
  destruct (utcoffset a) as [oa|], (utcoffset b) as [ob|];
    try destruct (oa =? ob); split; intros H;
    try reflexivity; try (eexists; reflexivity);
    try discriminate H; destruct H as [? H]; discriminate H.
Qed.

Lemma datetime_lt_naive (a b : datetime) :
  aware a = false -> aware b = false ->
  datetime_lt a b = Returns (fields_lt a b).
Proof.
  unfold datetime_lt, aware.
  destruct (utcoffset a), (utcoffset b); intros Ha Hb;
    try discriminate; reflexivity.
Qed.

Lemma datetime_lt_mixed (a b : datetime) :
  aware a <> aware b -> datetime_lt a b = Raises TypeError.
Proof.
  unfold datetime_lt, aware.
  destruct (utcoffset a), (utcoffset b); intros H;
    try reflexivity; contradiction H; reflexivity.
Qed.

(** C4.  A record that passes every rule comes back as a station whose
    identifier is the region, subregion and site fields joined by "|", and
    whose latitude and longitude are the floats that [float()] reads in
    the fourth and fifth fields.  The rules: the region code is not
    excluded, each coordinate is a float other than zero, the datum is
    WGS84 or NAD83, and the closure date is empty or is read as a datetime
    that is not before the one read for "1980-01-01". *)
Theorem accepted_station_fields
    (parser_parse : string -> result datetime)
    (state county site lat lon datum f7 f8 f9 f10 closed : string)
    (rest : list string) (la lo : float) :
  state ∉ excluded_states ->
  py_float lat = Returns la -> la <> Fin 0 ->
  py_float lon = Returns lo -> lo <> Fin 0 ->
  datum ∈ accepted_datums ->
  closed = "" \/
  (exists closed_date history_span,
     parser_parse closed = Returns closed_date /\
     parser_parse "1980-01-01" = Returns history_span /\
     datetime_lt closed_date history_span = Returns false) ->
  validate_record parser_parse
    (state :: county :: site :: lat :: lon :: datum
       :: f7 :: f8 :: f9 :: f10 :: closed :: rest)
  = Returns (Some (mkStation (state ++ "|" ++ county ++ "|" ++ site) la lo)).
Proof.
  intros Hstate Hla Hla0 Hlo Hlo0 Hdatum Hclosed.
  rewrite (validate_record_run parser_parse state county site lat lon datum
             f7 f8 f9 f10 closed rest la lo Hstate
             (proj2 (valid_nonzero_float_Some lat la) (conj Hla Hla0))
             (proj2 (valid_nonzero_float_Some lon lo) (conj Hlo Hlo0))
             Hdatum).
  destruct Hclosed as [->|(d & h & Hd & Hh & Hlt)]; [reflexivity|].
  destruct (bool_decide (closed = "")); [reflexivity|].
  rewrite Hd, Hh. simpl. rewrite Hlt. reflexivity.
Qed.

(** C5, as amended.  In a record whose region, coordinates and datum pass
    and whose closure-date field is not empty, a closure date that the date
    parser reads as a naive datetime before January 1, 1980 has the record
    rejected, and one read as a naive datetime on or after that day has
    the station returned; a closure date read as an aware datetime raises
    [TypeError] when it is compared with the cutoff, which is naive. *)
Theorem closure_date_filter
    (parser_parse : string -> result datetime)
    (state county site lat lon datum f7 f8 f9 f10 closed : string)
    (rest : list string) (la lo : float) (closed_date : datetime) :
  state ∉ excluded_states ->
  valid_nonzero_float lat = Returns (Some la) ->
  valid_nonzero_float lon = Returns (Some lo) ->
  datum ∈ accepted_datums ->
  closed <> "" ->
  parser_parse closed = Returns closed_date ->
  parser_parse "1980-01-01" = Returns history_cutoff ->
  validate_record parser_parse
    (state :: county :: site :: lat :: lon :: datum
       :: f7 :: f8 :: f9 :: f10 :: closed :: rest) =
  if aware closed_date then Raises TypeError
  else
    Returns
      (if fields_lt closed_date history_cutoff then None
       else Some (mkStation (state ++ "|" ++ county ++ "|" ++ site) la lo)).
Proof.
  intros Hstate Hla Hlo Hdatum Hclosed Hdate Hcut.
  rewrite (validate_record_run parser_parse state county site lat lon datum
             f7 f8 f9 f10 closed rest la lo Hstate Hla Hlo Hdatum).
  rewrite bool_decide_eq_false_2 by exact Hclosed.
  rewrite Hdate, Hcut. simpl.
  destruct (aware closed_date) eqn:Haware.
  - rewrite datetime_lt_mixed; [reflexivity|].
    rewrite Haware. discriminate.
  - rewrite datetime_lt_naive by (exact Haware || reflexivity). simpl.
    destruct (fields_lt closed_date history_cutoff); reflexivity.
Qed.

Lemma after_coordinates_returns parser_parse station (record : list string) :
  (11 <= length record)%nat ->
  (forall closed, record !! 10%nat = Some closed -> closed <> "" ->
     exists closed_date history_span,
       parser_parse closed = Returns closed_date /\
       parser_parse "1980-01-01" = Returns history_span /\
       aware closed_date = aware history_span) ->
  returns (after_coordinates parser_parse station record).
Proof.
  intros Hlen Hdate. unfold after_coordinates, returns.
  destruct (lookup_lt_is_Some_2 record 5) as [datum Hd]; [lia|].
  destruct (lookup_lt_is_Some_2 record 10) as [closed Hc]; [lia|].
  rewrite (proj2 (py_index_returns record 5 datum) Hd). simpl.
  destruct (bool_decide (datum ∈ accepted_datums)); simpl; eauto.
  rewrite (proj2 (py_index_returns record 10 closed) Hc). simpl.
  destruct (decide (closed = "")) as [->|Hne].
  - simpl. eauto.
  - rewrite bool_decide_eq_false_2 by exact Hne. simpl.
    destruct (Hdate closed Hc Hne) as (d & h & -> & -> & Haware). simpl.
    apply datetime_lt_returns in Haware as [before ->]. simpl.
    destruct before; eauto.
Qed.

(** C2, as amended.  A line in which the csv reader finds a record of
    eleven fields or more, whose closure-date field is empty or is read by
    the date parser as a datetime that can be compared with the one it
    reads for the cutoff "1980-01-01" (both naive, or both aware), comes
    back as a station or as [None]; nothing is raised, whatever the numeric
    fields hold. *)
Theorem long_record_returns
    (csv_reader_next : string -> result (list string))
    (parser_parse : string -> result datetime)
    (station_record : string) (record : list string) :
  csv_reader_next (encode_ascii_ignore station_record) = Returns record ->
  (11 <= length record)%nat ->
  (forall closed, record !! 10%nat = Some closed -> closed <> "" ->
     exists closed_date history_span,
       parser_parse closed = Returns closed_date /\
       parser_parse "1980-01-01" = Returns history_span /\
       aware closed_date = aware history_span) ->
  returns (parse_station_record csv_reader_next parser_parse station_record).
Proof.
  intros Hcsv Hlen Hdate.
  rewrite (parse_station_record_fields _ _ _ _ Hcsv).
  destruct record as [|state [|county [|site [|lat [|lon rest]]]]];
    try (simpl in Hlen; lia).
  destruct (decide (state ∈ excluded_states)) as [Hin|Hout].
  { rewrite validate_record_excluded by exact Hin. exists None. reflexivity. }
  rewrite validate_record_unfold by exact Hout.
  destruct (valid_nonzero_float_returns lat) as [[la|] ->];
    destruct (valid_nonzero_float_returns lon) as [[lo|] ->];
    try (exists None; reflexivity).
  apply after_coordinates_returns; assumption.
Qed.

(** C2, counterexample.  A record of three fields, and the line it is
    read from, raise [IndexError]. *)
Lemma short_record_raises :
  validate_record iso_date ["01"; "073"; "0023"] = Raises IndexError /\
  parse_station_record plain_csv iso_date "01,073,0023" = Raises IndexError.
Proof. split; vm_compute; reflexivity. Qed.

(** ** Examples: the theorems at work on registry lines *)

Lemma excluded_region_rejected_witness :
  "CC" ∈ excluded_states /\
  validate_record iso_date ["CC"; "001"; "0001"; "abc"] = Returns None /\
  (plain_csv (encode_ascii_ignore "CC,001,0001,abc")
     = Returns ["CC"; "001"; "0001"; "abc"] ->
   parse_station_record plain_csv iso_date "CC,001,0001,abc" = Returns None).
Proof.
  assert (H : "CC" ∈ excluded_states) by by_running.
  split; [exact H|].
  exact (excluded_region_rejected plain_csv iso_date "CC,001,0001,abc"
           "CC" ["001"; "0001"; "abc"] H).
Defined.

Lemma invalid_coordinate_rejected_witness :
  ("06" ∉ excluded_states) /\
  py_float "0" = Returns (Fin 0) /\
  validate_record iso_date
    ["06"; "037"; "0002"; "0"; "-118.2"; "WGS84"; ""; ""; ""; ""; ""]
  = Returns None.
Proof.
  assert (H : "06" ∉ excluded_states) by by_running.
  assert (Z : py_float "0" = Returns (Fin 0)) by reflexivity.
  split; [exact H|]. split; [exact Z|].
  apply (invalid_coordinate_rejected iso_date); [exact H|].
  left. right. exact Z.
Defined.

Lemma alabama_not_excluded : "01" ∉ excluded_states.
Proof. by_running. Qed.

Lemma nad83_accepted : "NAD83" ∈ accepted_datums.
Proof. by_running. Qed.

Lemma read_latitude :
  valid_nonzero_float "33.5" = Returns (Some (Fin (335 / 10))).
Proof.
  exact (valid_nonzero_float_literal "33.5" (LDec false 335 (-1))
           eq_refl eq_refl).
Qed.

Lemma read_longitude :
  valid_nonzero_float "-86.75" = Returns (Some (Fin (- (8675 / 100)))).
Proof.
  exact (valid_nonzero_float_literal "-86.75" (LDec true 8675 (-2))
           eq_refl eq_refl).
Qed.

Lemma read_latitude_float : py_float "33.5" = Returns (Fin (335 / 10)).
Proof. exact (proj1 (proj1 (valid_nonzero_float_Some _ _) read_latitude)). Qed.

Lemma read_longitude_float :
  py_float "-86.75" = Returns (Fin (- (8675 / 100))).
Proof. exact (proj1 (proj1 (valid_nonzero_float_Some _ _) read_longitude)). Qed.

Lemma latitude_nonzero : Fin (335 / 10) <> Fin 0.
Proof. exact (proj2 (proj1 (valid_nonzero_float_Some _ _) read_latitude)). Qed.

Lemma longitude_nonzero : Fin (- (8675 / 100)) <> Fin 0.
Proof. exact (proj2 (proj1 (valid_nonzero_float_Some _ _) read_longitude)). Qed.

Lemma accepted_station_fields_witness :
  ("01" ∉ excluded_states) /\
  py_float "33.5" = Returns (Fin (335 / 10)) /\
  py_float "-86.75" = Returns (Fin (- (8675 / 100))) /\
  "NAD83" ∈ accepted_datums /\
  datetime_lt (Datetime 1985 6 1 0 0 0 0 None) history_cutoff
  = Returns false /\
  validate_record iso_date
    ["01"; "073"; "0023"; "33.5"; "-86.75"; "NAD83";
     ""; ""; ""; "1957-01-01"; "1985-06-01"]
  = Returns (Some (mkStation "01|073|0023" (Fin (335 / 10))
                             (Fin (- (8675 / 100))))).
Proof.
  split; [exact alabama_not_excluded|].
  split; [exact read_latitude_float|].
  split; [exact read_longitude_float|].
  split; [exact nad83_accepted|].
  split; [reflexivity|].
  apply (accepted_station_fields iso_date "01" "073" "0023" "33.5" "-86.75"
           "NAD83" "" "" "" "1957-01-01" "1985-06-01" []
           (Fin (335 / 10)) (Fin (- (8675 / 100)))
           alabama_not_excluded
           read_latitude_float latitude_nonzero
           read_longitude_float longitude_nonzero nad83_accepted).
  right. exists (Datetime 1985 6 1 0 0 0 0 None), history_cutoff.
  split; [reflexivity|]. split; reflexivity.
Defined.

Lemma closure_date_filter_witness :
  iso_date "1975-06-01" = Returns (Datetime 1975 6 1 0 0 0 0 None) /\
  iso_date "1985-06-01" = Returns (Datetime 1985 6 1 0 0 0 0 None) /\
  iso_date "1985-06-01T00:00:00Z"
  = Returns (Datetime 1985 6 1 0 0 0 0 (Some 0)) /\
  iso_date "1980-01-01" = Returns history_cutoff /\
  validate_record iso_date
    ["01"; "073"; "0023"; "33.5"; "-86.75"; "NAD83";
     ""; ""; ""; "1957-01-01"; "1975-06-01"]
  = Returns None /\
  validate_record iso_date
    ["01"; "073"; "0023"; "33.5"; "-86.75"; "NAD83";
     ""; ""; ""; "1957-01-01"; "1985-06-01"]
  = Returns (Some (mkStation "01|073|0023" (Fin (335 / 10))
                             (Fin (- (8675 / 100))))) /\
  validate_record iso_date
    ["01"; "073"; "0023"; "33.5"; "-86.75"; "NAD83";
     ""; ""; ""; "1957-01-01"; "1985-06-01T00:00:00Z"]
  = Raises TypeError.
Proof.
  split; [reflexivity|]. split; [reflexivity|]. split; [reflexivity|].
  split; [reflexivity|].
  split; [|split].
  - exact (closure_date_filter iso_date "01" "073" "0023" "33.5" "-86.75"
             "NAD83" "" "" "" "1957-01-01" "1975-06-01" [] _ _
             (Datetime 1975 6 1 0 0 0 0 None)
             alabama_not_excluded read_latitude read_longitude
             nad83_accepted ltac:(discriminate) eq_refl eq_refl).
  - exact (closure_date_filter iso_date "01" "073" "0023" "33.5" "-86.75"
             "NAD83" "" "" "" "1957-01-01" "1985-06-01" [] _ _
             (Datetime 1985 6 1 0 0 0 0 None)
             alabama_not_excluded read_latitude read_longitude
             nad83_accepted ltac:(discriminate) eq_refl eq_refl).
  - exact (closure_date_filter iso_date "01" "073" "0023" "33.5" "-86.75"
             "NAD83" "" "" "" "1957-01-01" "1985-06-01T00:00:00Z" [] _ _
             (Datetime 1985 6 1 0 0 0 0 (Some 0))
             alabama_not_excluded read_latitude read_longitude
             nad83_accepted ltac:(discriminate) eq_refl eq_refl).
Defined.

(** C5, counterexample.  A closure date on June 1, 1985, written with a
    time zone: the record, whose other fields pass, is not accepted;
    [TypeError] is raised. *)
Lemma zoned_closure_date_raises :
  iso_date "1985-06-01T00:00:00Z"
  = Returns (Datetime 1985 6 1 0 0 0 0 (Some 0)) /\
  iso_date "1980-01-01" = Returns history_cutoff /\
  validate_record iso_date
    ["01"; "073"; "0023"; "33.5"; "-86.75"; "NAD83";
     ""; ""; ""; "1957-01-01"; "1985-06-01T00:00:00Z"]
  = Raises TypeError.
Proof.
  split; [reflexivity|]. split; [reflexivity|].
  rewrite (validate_record_run iso_date "01" "073" "0023" "33.5" "-86.75"
             "NAD83" "" "" "" "1957-01-01" "1985-06-01T00:00:00Z" [] _ _
             alabama_not_excluded read_latitude read_longitude
             nad83_accepted).
  reflexivity.
Qed.

Lemma long_record_returns_witness :
  plain_csv (encode_ascii_ignore
               "01,073,0023,abc,-86.75,NAD83,,,,1957-01-01,1985-06-01")
  = Returns ["01"; "073"; "0023"; "abc"; "-86.75"; "NAD83";
             ""; ""; ""; "1957-01-01"; "1985-06-01"] /\
  iso_date "1985-06-01" = Returns (Datetime 1985 6 1 0 0 0 0 None) /\
  iso_date "1980-01-01" = Returns history_cutoff /\
  returns (parse_station_record plain_csv iso_date
             "01,073,0023,abc,-86.75,NAD83,,,,1957-01-01,1985-06-01").
Proof.
  split; [reflexivity|]. split; [reflexivity|]. split; [reflexivity|].
  apply (long_record_returns plain_csv iso_date _
           ["01"; "073"; "0023"; "abc"; "-86.75"; "NAD83";
            ""; ""; ""; "1957-01-01"; "1985-06-01"]).
  - reflexivity.
  - simpl. lia.
  - intros closed Hc _. inversion Hc.
    exists (Datetime 1985 6 1 0 0 0 0 None), history_cutoff.
    split; [reflexivity|]. split; reflexivity.
Defined.

(* ------------------------------------------------------------------ *)
(** * Properties of the distance *)

Local Open Scope R_scope.

Lemma fdiv_two (x : float) : fdiv x (Fin 2) = Returns (fmul x (Fin (/ 2))).
Proof.
  unfold fdiv. destruct (Req_dec_T 2 0) as [H|H]; [lra|reflexivity].
Qed.

Lemma inf_times_pos (r : R) : 0 < r -> inf_times r = PInf.
Proof.
  intros H. unfold inf_times.
  destruct (Req_dec_T r 0); [lra|]. destruct (Rlt_dec r 0); [lra|reflexivity].
Qed.

Lemma degree_pos : 0 < PI / 180.
Proof. pose proof PI_RGT_0. lra. Qed.

(** Half of an angle given in degrees, in radians: [radians(x) / 2.0]
    keeps the special values. *)
Lemma half_radians (x : float) :
  fmul (radians x) (Fin (/ 2)) =
  match x with
  | Fin r => Fin (r * (PI / 180) * / 2)
  | _ => x
  end.
Proof.
  assert (H2 : 0 < / 2) by lra.
  destruct x; unfold radians; simpl; try reflexivity;
    rewrite (inf_times_pos _ degree_pos); simpl;
    rewrite (inf_times_pos _ H2); reflexivity.
Qed.

Lemma radians_special (x : float) :
  radians x = match x with Fin r => Fin (r * (PI / 180)) | _ => x end.
Proof.
  destruct x; unfold radians; simpl; try reflexivity;
    rewrite (inf_times_pos _ degree_pos); reflexivity.
Qed.

(** cos (m - h) * cos (m + h) = cos² m - sin² h *)
Lemma cos_product (m h : R) :
  cos (m - h) * cos (m + h) = cos m ^ 2 - sin h ^ 2.
Proof.
  rewrite cos_minus, cos_plus.
  pose proof (sin2_cos2 m) as Hm. pose proof (sin2_cos2 h) as Hh.
  unfold Rsqr in Hm, Hh. nra.
Qed.

(** The haversine term lies between 0 and 1: it is a mean of
    sin² of the half difference and cos² of the half sum of the
    latitudes. *)
Lemma haversine_unit (lat1 lon1 lat2 lon2 : R) :
  0 <= haversine lat1 lon1 lat2 lon2 <= 1.
Proof.
  unfold haversine.
  set (k := PI / 180).
  set (h := (lat2 + - lat1) * k * / 2).
  set (m := (lat2 + lat1) * k * / 2).
  set (u := sin ((lon2 + - lon1) * k * / 2) ^ 2).
  replace (lat1 * k) with (m - h) by (unfold m, h; field).
  replace (lat2 * k) with (m + h) by (unfold m, h; field).
  rewrite cos_product.
  assert (Hu : 0 <= u <= 1).
  { unfold u. pose proof (SIN_bound ((lon2 + - lon1) * k * / 2)). nra. }
  assert (Hs : 0 <= sin h ^ 2 <= 1) by (pose proof (SIN_bound h); nra).
  assert (Hc : 0 <= cos m ^ 2 <= 1) by (pose proof (COS_bound m); nra).
  nra.
Qed.

Lemma sqrt_unit (a : R) : 0 <= a <= 1 -> 0 <= sqrt a <= 1.
Proof.
  intros [H0 H1]. split; [apply sqrt_pos|].
  rewrite <- sqrt_1. apply sqrt_le_1; lra.
Qed.

Lemma math_sqrt_nonneg (a : R) :
  0 <= a -> math_sqrt (Fin a) = Returns (Fin (sqrt a)).
Proof.
  intros H. unfold math_sqrt. destruct (Rlt_dec a 0); [lra|reflexivity].
Qed.

Lemma math_asin_unit (r : R) :
  -1 <= r <= 1 -> math_asin (Fin r) = Returns (Fin (asin r)).
Proof.
  intros H. unfold math_asin.
  destruct (Rlt_dec r (-1)); [lra|]. destruct (Rlt_dec 1 r); [lra|reflexivity].
Qed.

(** On finite coordinates the distance is the closed haversine formula. *)
Lemma calc_distance_finite (lat1 lon1 lat2 lon2 : R) :
  calc_distance (Fin lat1) (Fin lon1) (Fin lat2) (Fin lon2) =
  Returns (Fin (3959 * (2 * asin (sqrt (haversine lat1 lon1 lat2 lon2))))).
Proof.
  pose proof (haversine_unit lat1 lon1 lat2 lon2) as Ha.
  pose proof (sqrt_unit _ Ha) as Hs.
  unfold calc_distance.
  rewrite !fdiv_two. cbn [mbind result_bind].
  rewrite !half_radians, !radians_special.
  cbn [fsub fneg fadd math_sin math_cos mbind result_bind fpow2 fmul].
  fold (haversine lat1 lon1 lat2 lon2).
  rewrite (math_sqrt_nonneg _ (proj1 Ha)). cbn [mbind result_bind].
  rewrite math_asin_unit by lra. reflexivity.
Qed.

Lemma asin_nonneg (r : R) : 0 <= r <= 1 -> 0 <= asin r.
Proof.
  intros H. destruct (Rle_dec 0 (asin r)) as [|Hn]; [assumption|].
  exfalso. apply Rnot_le_lt in Hn.
  pose proof (asin_bound r) as Hb. pose proof PI_RGT_0.
  assert (Hs : sin (asin r) < 0) by (apply sin_lt_0_var; lra).
  rewrite sin_asin in Hs; lra.
Qed.

(** Between a point and itself the haversine term is zero. *)
Lemma haversine_same_point (lat lon : R) : haversine lat lon lat lon = 0.
Proof.
  unfold haversine.
  replace ((lat + - lat) * (PI / 180) * / 2) with 0 by ring.
  replace ((lon + - lon) * (PI / 180) * / 2) with 0 by ring.
  rewrite sin_0. ring.
Qed.

(** C7.  The distance from a point with finite coordinates to itself is
    exactly zero. *)
Theorem calc_distance_identity (lat lon : R) :
  calc_distance (Fin lat) (Fin lon) (Fin lat) (Fin lon) = Returns (Fin 0).
Proof.
  rewrite calc_distance_finite.
  rewrite haversine_same_point, sqrt_0, asin_0.
  do 2 f_equal. ring.
Qed.

(** Nothing clamps the argument of [asin]: on a term [a] above 1,
    lines 116-117 raise. *)
Lemma term_above_one_raises (a : R) :
  1 < a -> distance_of_term (Fin a) = Raises ValueError.
Proof.
  intros Ha. unfold distance_of_term.
  rewrite math_sqrt_nonneg by lra. cbn [mbind result_bind].
  assert (Hs : 1 < sqrt a).
  { rewrite <- sqrt_1 at 1. apply sqrt_lt_1; lra. }
  unfold math_asin.
  destruct (Rlt_dec (sqrt a) (-1)); [reflexivity|].
  destruct (Rlt_dec 1 (sqrt a)); [reflexivity|lra].
Qed.

(** [calc_distance] with its divisions by 2.0 carried out. *)
Lemma calc_distance_steps (lat1 lon1 lat2 lon2 : float) :
  calc_distance lat1 lon1 lat2 lon2 =
  (sin_lat ← math_sin (fmul (radians (fsub lat2 lat1)) (Fin (/ 2)));
   cos1 ← math_cos (radians lat1);
   cos2 ← math_cos (radians lat2);
   sin_lon ← math_sin (fmul (radians (fsub lon2 lon1)) (Fin (/ 2)));
   distance_of_term
     (fadd (fpow2 sin_lat) (fmul (fmul cos1 cos2) (fpow2 sin_lon)))).
Proof.
  unfold calc_distance. rewrite !fdiv_two. reflexivity.
Qed.

Lemma bind_inv {A B} (m : result A) (f : A -> result B) (b : B) :
  m ≫= f = Returns b -> exists a, m = Returns a /\ f a = Returns b.
Proof.
  destruct m as [a|e]; simpl; intros H; [eauto|discriminate].
Qed.

(** A distance that is returned is NaN or lies between 0 and half the
    circumference. *)
Lemma distance_of_term_bounds (a d : float) :
  distance_of_term a = Returns d ->
  d = NaN \/ exists r, d = Fin r /\ 0 <= r <= PI * 3959.
Proof.
  unfold distance_of_term. intros H.
  apply bind_inv in H as (root & Hroot & H).
  apply bind_inv in H as (angle & Hangle & H).
  inversion H; subst d; clear H.
  destruct a as [a| | |]; simpl in Hroot.
  - destruct (Rlt_dec a 0); [discriminate|].
    inversion Hroot; subst root; clear Hroot.
    simpl in Hangle.
    destruct (Rlt_dec (sqrt a) (-1)); [discriminate|].
    destruct (Rlt_dec 1 (sqrt a)); [discriminate|].
    inversion Hangle; subst angle; clear Hangle.
    right. eexists. split; [reflexivity|].
    pose proof (sqrt_pos a) as H0.
    assert (Hu : 0 <= sqrt a <= 1) by lra.
    pose proof (asin_nonneg _ Hu). pose proof (asin_bound (sqrt a)). lra.
  - inversion Hroot; subst root. discriminate Hangle.
  - discriminate Hroot.
  - inversion Hroot; subst root. inversion Hangle; subst angle.
    left. reflexivity.
Qed.

(** C10, as amended.  A distance that [calc_distance] returns and that is
    not NaN is a finite number between 0 and pi * 3959 miles. *)
Theorem calc_distance_bounds (lat1 lon1 lat2 lon2 d : float) :
  calc_distance lat1 lon1 lat2 lon2 = Returns d ->
  is_nan d = false ->
  exists r : R, d = Fin r /\ 0 <= r <= PI * 3959.
Proof.
  intros H Hd. rewrite calc_distance_steps in H.
  apply bind_inv in H as (sin_lat & _ & H).
  apply bind_inv in H as (cos1 & _ & H).
  apply bind_inv in H as (cos2 & _ & H).
  apply bind_inv in H as (sin_lon & _ & H).
  apply distance_of_term_bounds in H as [->|H].
  - discriminate Hd.
  - exact H.
Qed.

Lemma calc_distance_bounds_witness :
  calc_distance (Fin 40) (Fin (-75)) (Fin 40) (Fin (-75)) = Returns (Fin 0) /\
  is_nan (Fin 0) = false /\
  exists r : R, Fin 0 = Fin r /\ 0 <= r <= PI * 3959.
Proof.
  assert (H : calc_distance (Fin 40) (Fin (-75)) (Fin 40) (Fin (-75))
              = Returns (Fin 0)).
  { rewrite calc_distance_finite, haversine_same_point, sqrt_0, asin_0.
    do 2 f_equal. ring. }
  split; [exact H|]. split; [reflexivity|].
  exact (calc_distance_bounds _ _ _ _ _ H eq_refl).
Defined.

(** C10, counterexample.  A NaN latitude, which [float("nan")] yields and
    [valid_nonzero_float] lets through, gives a NaN distance: a value that
    is returned and is not greater than or equal to zero. *)
Lemma calc_distance_nan :
  valid_nonzero_float "nan" = Returns (Some NaN) /\
  calc_distance (Fin 40) (Fin (-75)) NaN (Fin (-75)) = Returns NaN /\
  fle (Fin 0) NaN = false.
Proof.
  split; [reflexivity|]. split; [|reflexivity].
  rewrite calc_distance_steps, !radians_special. reflexivity.
Qed.

Lemma fmul_comm (x y : float) : fmul x y = fmul y x.
Proof.
  destruct x as [a| | |], y as [b| | |]; simpl; try reflexivity.
  f_equal. ring.
Qed.

Lemma math_cos_raises (x : float) (e : exn) :
  math_cos x = Raises e -> e = ValueError.
Proof. destruct x; simpl; intros H; inversion H; reflexivity. Qed.

(** The squared sine of half a difference does not depend on the order
    of the two coordinates. *)
Lemma squared_half_sine_swap (x y : float) :
  squared_half_sine x y = squared_half_sine y x.
Proof.
  unfold squared_half_sine. rewrite !half_radians.
  destruct x as [a| | |], y as [b| | |]; try reflexivity.
  cbn [fsub fneg fadd math_sin mbind result_bind fpow2].
  replace ((a + - b) * (PI / 180) * / 2)
    with (- ((b + - a) * (PI / 180) * / 2)) by ring.
  rewrite sin_neg. do 2 f_equal. ring.
Qed.

Lemma calc_distance_squares (lat1 lon1 lat2 lon2 : float) :
  calc_distance lat1 lon1 lat2 lon2 =
  (sq_lat ← squared_half_sine lat1 lat2;
   cos1 ← math_cos (radians lat1);
   cos2 ← math_cos (radians lat2);
   sq_lon ← squared_half_sine lon1 lon2;
   distance_of_term (fadd sq_lat (fmul (fmul cos1 cos2) sq_lon))).
Proof.
  rewrite calc_distance_steps. unfold squared_half_sine.
  destruct (math_sin (fmul (radians (fsub lat2 lat1)) (Fin (/ 2))));
    [|reflexivity].
  cbn [mbind result_bind].
  destruct (math_cos (radians lat1)); [|reflexivity].
  destruct (math_cos (radians lat2)); [|reflexivity].
  cbn [mbind result_bind].
  destruct (math_sin (fmul (radians (fsub lon2 lon1)) (Fin (/ 2))));
    reflexivity.
Qed.

Lemma feq_refl (x : float) : is_nan x = false -> feq x x = true.
Proof.
  destruct x as [r| | |]; simpl; try reflexivity; try discriminate.
  intros _. destruct (Req_dec_T r r); [reflexivity|contradiction].
Qed.

(** C6.  The distance is symmetric: exchanging the two points gives the
    same outcome, be it a number, NaN or the [ValueError] raised; when a
    number is returned, the two distances compare equal with [==]. *)
Theorem calc_distance_symmetric (lat1 lon1 lat2 lon2 : float) :
  calc_distance lat1 lon1 lat2 lon2 = calc_distance lat2 lon2 lat1 lon1 /\
  forall d d' : float,
    calc_distance lat1 lon1 lat2 lon2 = Returns d ->
    calc_distance lat2 lon2 lat1 lon1 = Returns d' ->
    is_nan d = false -> feq d d' = true.
Proof.
  assert (Hsym : calc_distance lat1 lon1 lat2 lon2
                 = calc_distance lat2 lon2 lat1 lon1).
  { rewrite !calc_distance_squares.
    rewrite (squared_half_sine_swap lat2 lat1).
    rewrite (squared_half_sine_swap lon2 lon1).
    destruct (squared_half_sine lat1 lat2) as [sq_lat|e]; [|reflexivity].
    cbn [mbind result_bind].
    destruct (math_cos (radians lat1)) as [cos1|e1] eqn:E1;
      destruct (math_cos (radians lat2)) as [cos2|e2] eqn:E2;
      cbn [mbind result_bind]; try reflexivity.
    - rewrite (fmul_comm cos2 cos1). reflexivity.
    - apply math_cos_raises in E1, E2. subst. reflexivity. }
  split; [exact Hsym|].
  intros d d' Hd Hd' Hnan.
  rewrite Hsym, Hd' in Hd. inversion Hd; subst d'.
  apply feq_refl, Hnan.
Qed.

(* ------------------------------------------------------------------ *)
(** * Properties of the distance in binary64 *)

Section Binary64Distance.

Import PrimFloat.
Local Open Scope float_scope.
#[local] Set Warnings "-inexact-float".

Lemma SFcompare_refl (s : SpecFloat.spec_float) :
  s <> SpecFloat.S754_nan -> SpecFloat.SFcompare s s = Some Eq.
Proof.
  destruct s as [sg|sg| |sg m e]; intros H; simpl; try reflexivity.
  - destruct sg; reflexivity.
  - contradiction H; reflexivity.
  - rewrite Z.compare_refl.
    assert (Hm : Pos.compare_cont Eq m m = Eq) by apply Pos.compare_cont_refl.
    rewrite Hm. destruct sg; reflexivity.
Qed.

(** What is greater than a float is not NaN. *)
Lemma ltb_not_nan (x y : float) : (x <? y) = true -> is_nan y = false.
Proof.
  unfold is_nan. rewrite FloatAxioms.ltb_spec, FloatAxioms.eqb_spec.
  unfold SpecFloat.SFltb, SpecFloat.SFeqb.
  destruct (FloatOps.Prim2SF y) as [sg|sg| |sg m e] eqn:E.
  - intros _. reflexivity.
  - intros _. destruct sg; reflexivity.
  - destruct (FloatOps.Prim2SF x); discriminate.
  - intros _. rewrite SFcompare_refl by discriminate. reflexivity.
Qed.

(** [calc_distance] is lines 116-117 on the term of lines 110-115. *)
Lemma calc_distance_term (c_sin c_cos c_asin : float -> float)
    (c_pow : float -> float -> float) (lat1 lon1 lat2 lon2 : float) :
  Binary64.calc_distance c_sin c_cos c_asin c_pow lat1 lon1 lat2 lon2 =
  (a ← Binary64.haversine_term c_sin c_cos c_pow lat1 lon1 lat2 lon2;
   root ← Binary64.math_1 sqrt a;
   angle ← Binary64.math_1 c_asin root;
   Returns (3959 * (2 * angle))).
Proof.
  unfold Binary64.calc_distance, Binary64.haversine_term.
  repeat match goal with
         | |- context [mbind _ ?m] =>
             lazymatch m with
             | Binary64.float_div _ _ => idtac
             | Binary64.math_1 ?f _ =>
                 lazymatch f with
                 | sqrt => fail
                 | c_asin => fail
                 | _ => idtac
                 end
             | Binary64.float_pow2 _ _ => idtac
             end;
             destruct m; cbn [mbind result_bind]; [|reflexivity]
         end.
  reflexivity.
Qed.

(** C3, as amended.  [calc_distance] does not clamp the argument of
    [asin]: for the term [a] that lines 110-115 compute, with the rounding
    of binary64, it hands [sqrt(a)] to [asin] as it is.  Whenever [sqrt(a)]
    exceeds 1, where the C library's [asin] has no value, [ValueError] is
    raised, as it is when [a] is negative and has no square root; when
    [sqrt(a)] and its arc sine are finite, the distance
    3959 * (2 * asin(sqrt(a))) is returned. *)
Theorem asin_argument_not_clamped (c_sin c_cos c_asin : float -> float)
    (c_pow : float -> float -> float) (lat1 lon1 lat2 lon2 a : float) :
  (forall x, (1 <? x) = true -> is_nan (c_asin x) = true) ->
  Binary64.haversine_term c_sin c_cos c_pow lat1 lon1 lat2 lon2 = Returns a ->
  ((1 <? sqrt a) = true ->
   Binary64.calc_distance c_sin c_cos c_asin c_pow lat1 lon1 lat2 lon2
   = Raises ValueError) /\
  (is_nan a = false -> is_nan (sqrt a) = true ->
   Binary64.calc_distance c_sin c_cos c_asin c_pow lat1 lon1 lat2 lon2
   = Raises ValueError) /\
  (is_finite (sqrt a) = true -> is_finite (c_asin (sqrt a)) = true ->
   Binary64.calc_distance c_sin c_cos c_asin c_pow lat1 lon1 lat2 lon2
   = Returns (3959 * (2 * c_asin (sqrt a)))).
Proof.
  intros Hasin Ha. rewrite calc_distance_term, Ha. cbn [mbind result_bind].
  unfold Binary64.math_1. split; [|split].
  - intros Hroot.
    rewrite (ltb_not_nan _ _ Hroot). cbn [andb].
    destruct (is_infinity (sqrt a) && is_finite a); [reflexivity|].
    cbn [mbind result_bind].
    rewrite (Hasin _ Hroot), (ltb_not_nan _ _ Hroot). reflexivity.
  - intros Hnan Hroot. rewrite Hroot, Hnan. reflexivity.
  - intros Hroot Hangle. unfold is_finite in Hroot, Hangle.
    apply negb_true_iff, orb_false_iff in Hroot as [Hr1 Hr2].
    apply negb_true_iff, orb_false_iff in Hangle as [Ha1 Ha2].
    rewrite Hr1, Hr2. cbn [andb mbind result_bind].
    rewrite Ha1, Ha2. reflexivity.
Qed.

Lemma glibc_asin_domain (x : float) :
  (1 <? x) = true -> is_nan (Binary64.glibc_asin x) = true.
Proof. intros H. unfold Binary64.glibc_asin. rewrite H. reflexivity. Qed.

(** C3, counterexample.  Two points that are nearly antipodal, at
    (58.384479, -118.8486141) and (-58.3844789, 61.1513858): the term [a]
    comes to 1.0000000000000004, its square root to 1.0000000000000002,
    and [calc_distance] raises [ValueError] (math domain error). *)
Lemma near_antipodal_points_raise :
  Binary64.haversine_term Binary64.glibc_sin Binary64.glibc_cos
    Binary64.glibc_pow 58.384479 (-118.8486141) (-58.3844789) 61.1513858
  = Returns 1.0000000000000004 /\
  sqrt 1.0000000000000004 = 1.0000000000000002 /\
  (1 <? 1.0000000000000002) = true /\
  Binary64.calc_distance Binary64.glibc_sin Binary64.glibc_cos
    Binary64.glibc_asin Binary64.glibc_pow
    58.384479 (-118.8486141) (-58.3844789) 61.1513858
  = Raises ValueError.
Proof. repeat split; vm_compute; reflexivity. Qed.

(** The theorem at work on a grid point at (40, -75) and a station at
    (40.4338, -75): 29.97453241050426 miles. *)
Lemma asin_argument_not_clamped_witness :
  Binary64.haversine_term Binary64.glibc_sin Binary64.glibc_cos
    Binary64.glibc_pow 40 (-75) 40.4338 (-75)
  = Returns 1.4330843872273041e-05 /\
  Binary64.calc_distance Binary64.glibc_sin Binary64.glibc_cos
    Binary64.glibc_asin Binary64.glibc_pow 40 (-75) 40.4338 (-75)
  = Returns 29.97453241050426.
Proof.
  assert (Ha : Binary64.haversine_term Binary64.glibc_sin Binary64.glibc_cos
                 Binary64.glibc_pow 40 (-75) 40.4338 (-75)
               = Returns 1.4330843872273041e-05) by (vm_compute; reflexivity).
  split; [exact Ha|].
  exact (proj2 (proj2 (asin_argument_not_clamped _ _ _ _ _ _ _ _ _
                         glibc_asin_domain Ha)) eq_refl eq_refl).
Defined.

End Binary64Distance.

(* ------------------------------------------------------------------ *)
(** * Properties of the neighbour map *)

Lemma PI_bounds : 3141 / 1000 < PI < 3143 / 1000.
Proof.
  pose proof (PI_2_3_7_ineq 1) as H.
  unfold sum_f_R0, tg_alt, PI_2_3_7_tg, Ratan_seq in H.
  simpl in H. lra.
Qed.

(** Along a meridian, northwards, the distance is the radius times the
    difference of latitude in radians. *)
Lemma distance_along_meridian (lat1 lat2 lon : R) :
  0 <= lat2 - lat1 <= 180 ->
  calc_distance (Fin lat1) (Fin lon) (Fin lat2) (Fin lon) =
  Returns (Fin (3959 * ((lat2 - lat1) * (PI / 180)))).
Proof.
  intros Hd. rewrite calc_distance_finite.
  pose proof PI_RGT_0 as Hpi.
  set (h := (lat2 + - lat1) * (PI / 180) * / 2).
  assert (Hh : 0 <= h <= PI / 2) by (unfold h; nra).
  assert (Ha : haversine lat1 lon lat2 lon = sin h ^ 2).
  { unfold haversine. fold h.
    replace ((lon + - lon) * (PI / 180) * / 2) with 0 by ring.
    rewrite sin_0. ring. }
  rewrite Ha, sqrt_pow2 by (apply sin_ge_0; lra).
  rewrite asin_sin by lra.
  do 2 f_equal. unfold h. field.
Qed.

(** A stored distance never exceeds the cutoff: rounding a distance under
    30 miles to one decimal gives 30.0 at most. *)
Lemma py_round_cutoff (d : float) :
  flt d d_cutoff = true -> fle (py_round d precision) d_cutoff = true.
Proof.
  destruct d as [r| | |]; simpl; try discriminate; try reflexivity.
  destruct (Rlt_dec r 30) as [Hr|]; [intros _|discriminate].
  match goal with |- (if Rle_dec ?x 30 then _ else _) = _ =>
    destruct (Rle_dec x 30) as [|Hn]; [reflexivity|exfalso; apply Hn] end.
  unfold round_half_away.
  destruct (Rle_dec 0 (r * (10 * 1))) as [Hp|Hp].
  - assert (Hz : (Zfloor (r * (10 * 1) + / 2) <= 300)%Z).
    { apply Z.lt_succ_r. apply lt_IZR.
      pose proof (Zfloor_bound (r * (10 * 1) + / 2)) as [Hb _].
      rewrite succ_IZR. lra. }
    apply IZR_le in Hz. lra.
  - assert (Hz : (0 <= Zfloor (- (r * (10 * 1)) + / 2))%Z).
    { apply Zfloor_lub. simpl. lra. }
    apply IZR_le in Hz. rewrite opp_IZR. lra.
Qed.

(** What the loop adds: every entry of the result was in the dictionary
    at the start, or is the rounded distance of a grid point closer than
    the cutoff. *)
Lemma scan_grid_entries (station : Station) (grid : list GridPoint) :
  forall (acc result : gmap string float),
  scan_grid station grid acc = Returns result ->
  forall (gid : string) (v : float),
  result !! gid = Some v ->
  acc !! gid = Some v \/
  exists g d,
    g ∈ grid /\ grid_id g = gid /\
    calc_distance (grid_lat g) (grid_lon g)
                  (latitude station) (longitude station) = Returns d /\
    flt d d_cutoff = true /\ v = py_round d precision.
Proof.
  induction grid as [|g grid IH]; intros acc result Hscan gid v Hv.
  - inversion Hscan; subst. left. exact Hv.
  - simpl in Hscan.
    apply bind_inv in Hscan as (d & Hd & Hscan).
    destruct (IH _ _ Hscan gid v Hv) as [Hacc|(g' & d' & Hin & Hrest)].
    + destruct (flt d d_cutoff) eqn:Hlt.
      * destruct (decide (grid_id g = gid)) as [Heq|Hne].
        -- subst gid. rewrite lookup_insert_eq in Hacc.
           inversion Hacc; subst v.
           right. exists g, d. split; [apply elem_of_cons; left; reflexivity|]. auto.
        -- rewrite lookup_insert_ne in Hacc by exact Hne. left. exact Hacc.
      * left. exact Hacc.
    + right. exists g', d'. split; [apply elem_of_cons; right; exact Hin|].
      exact Hrest.
Qed.

(** C1, as amended.  Every grid id in the mapping that
    [determine_grid_point_neighbors] returns belongs to a grid point whose
    distance to the station is strictly less than 30 miles; the value
    stored for it is that distance rounded to one decimal, which is at
    most 30.0. *)
Theorem neighbors_within_cutoff (GRID : list GridPoint) (rdd : Station)
    (sid : string) (neighbors : gmap string float) :
  determine_grid_point_neighbors GRID rdd = Returns (sid, neighbors) ->
  sid = station_id rdd /\
  forall (gid : string) (v : float),
  neighbors !! gid = Some v ->
  exists g d,
    g ∈ GRID /\ grid_id g = gid /\
    calc_distance (grid_lat g) (grid_lon g)
                  (latitude rdd) (longitude rdd) = Returns d /\
    flt d d_cutoff = true /\
    v = py_round d precision /\
    fle v d_cutoff = true.
Proof.
  unfold determine_grid_point_neighbors. intros H.
  apply bind_inv in H as (m & Hscan & H).
  inversion H; subst sid neighbors; clear H.
  split; [reflexivity|].
  intros gid v Hv.
  destruct (scan_grid_entries _ _ _ _ Hscan gid v Hv)
    as [Hempty|(g & d & Hin & Hid & Hd & Hlt & Hround)].
  - rewrite lookup_empty in Hempty. discriminate.
  - exists g, d. repeat (split; [assumption|]).
    subst v. apply py_round_cutoff, Hlt.
Qed.

(** A station 0.4338 degrees of latitude north of a grid point, on the
    same meridian: its distance is 3959 * 0.4338 * pi / 180 miles, between
    29.96 and 29.99. *)
Lemma near_cutoff_distance :
  exists r : R,
    calc_distance (Fin 40) (Fin (-75)) (Fin (404338 / 10000)) (Fin (-75))
      = Returns (Fin r) /\
    2996 / 100 < r < 2999 / 100.
Proof.
  exists (3959 * ((404338 / 10000 - 40) * (PI / 180))).
  split; [apply distance_along_meridian; lra|].
  pose proof PI_bounds. lra.
Qed.

(** Such a distance is under the cutoff and rounds to 30.0. *)
Lemma near_cutoff_rounds (r : R) :
  2996 / 100 < r < 2999 / 100 ->
  flt (Fin r) d_cutoff = true /\ py_round (Fin r) precision = Fin 30.
Proof.
  intros Hr. split.
  - simpl. destruct (Rlt_dec r 30); [reflexivity|lra].
  - simpl. f_equal. unfold round_half_away.
    destruct (Rle_dec 0 (r * (10 * 1))); [|lra].
    rewrite (Zfloor_eq 300); [lra|]. lra.
Qed.

Lemma near_cutoff_neighbors :
  determine_grid_point_neighbors
    [mkGridPoint "g1" (Fin 40) (Fin (-75))]
    (mkStation "42|101|0004" (Fin (404338 / 10000)) (Fin (-75)))
  = Returns ("42|101|0004", {["g1" := Fin 30]}).
Proof.
  destruct near_cutoff_distance as (r & Hd & Hr).
  destruct (near_cutoff_rounds r Hr) as [Hlt Hround].
  unfold determine_grid_point_neighbors. simpl.
  rewrite Hd. cbn [mbind result_bind].
  rewrite Hlt, Hround. reflexivity.
Qed.

(** C1, counterexample.  For a grid point 29.97 miles from the station,
    the mapping holds 30.0, which is not strictly less than the cutoff. *)
Lemma stored_distance_reaches_cutoff :
  exists neighbors : gmap string float,
    determine_grid_point_neighbors
      [mkGridPoint "g1" (Fin 40) (Fin (-75))]
      (mkStation "42|101|0004" (Fin (404338 / 10000)) (Fin (-75)))
    = Returns ("42|101|0004", neighbors) /\
    neighbors !! "g1" = Some (Fin 30) /\
    flt (Fin 30) d_cutoff = false.
Proof.
  exists {["g1" := Fin 30]}.
  split; [exact near_cutoff_neighbors|].
  split; [apply lookup_singleton_eq|].
  simpl. destruct (Rlt_dec 30 30); [lra|reflexivity].
Qed.

Lemma neighbors_within_cutoff_witness :
  determine_grid_point_neighbors
    [mkGridPoint "g1" (Fin 40) (Fin (-75))]
    (mkStation "42|101|0004" (Fin (404338 / 10000)) (Fin (-75)))
  = Returns ("42|101|0004", {["g1" := Fin 30]}) /\
  "42|101|0004" = station_id
    (mkStation "42|101|0004" (Fin (404338 / 10000)) (Fin (-75))) /\
  forall (gid : string) (v : float),
  ({["g1" := Fin 30]} : gmap string float) !! gid = Some v ->
  exists g d,
    g ∈ [mkGridPoint "g1" (Fin 40) (Fin (-75))] /\ grid_id g = gid /\
    calc_distance (grid_lat g) (grid_lon g)
      (Fin (404338 / 10000)) (Fin (-75)) = Returns d /\
    flt d d_cutoff = true /\
    v = py_round d precision /\
    fle v d_cutoff = true.
Proof.
  split; [exact near_cutoff_neighbors|].
  exact (neighbors_within_cutoff _ _ _ _ near_cutoff_neighbors).
Defined.

(* ------------------------------------------------------------------ *)
(** * Further properties of the record validator *)

Local Close Scope R_scope.

(** X1.  [valid_nonzero_float] raises nothing, whatever the string: it
    gives [None] when [float()] cannot read the string or reads it as zero,
    and otherwise the float that [float()] reads, which is not zero. *)
Theorem valid_nonzero_float_outcome (s : string) :
  (valid_nonzero_float s = Returns None /\ unparsable_or_zero s) \/
  (exists x : float,
     valid_nonzero_float s = Returns (Some x) /\
     py_float s = Returns x /\ x <> Fin 0).
Proof.
  destruct (valid_nonzero_float_returns s) as [[x|] H].
  - right. exists x. split; [exact H|].
    apply valid_nonzero_float_Some, H.
  - left. split; [exact H|].
    apply valid_nonzero_float_None, H.
Qed.

(** What lines 71-85 hand back as a station: the record has a sixth and
    an eleventh field, the datum is accepted, and the closure date is
    empty or read as a day that is not before the cutoff. *)
Lemma after_coordinates_inv parser_parse station (record : list string) st :
  after_coordinates parser_parse station record = Returns (Some st) ->
  st = station /\
  exists datum closed,
    record !! 5%nat = Some datum /\ datum ∈ accepted_datums /\
    record !! 10%nat = Some closed /\
    (closed = "" \/
     exists closed_date history_span,
       parser_parse closed = Returns closed_date /\
       parser_parse "1980-01-01" = Returns history_span /\
       datetime_lt closed_date history_span = Returns false).
Proof.
  intros H. split; [exact (after_coordinates_Some _ _ _ _ H)|].
  unfold after_coordinates in H.
  destruct (py_index record 5) as [datum|e] eqn:E5; simpl in H;
    [|discriminate].
  destruct (decide (datum ∈ accepted_datums)) as [Hd|Hd];
    [rewrite (bool_decide_eq_true_2 _ Hd) in H
    |rewrite (bool_decide_eq_false_2 _ Hd) in H; discriminate].
  simpl in H.
  destruct (py_index record 10) as [closed|e] eqn:E10; simpl in H;
    [|discriminate].
  exists datum, closed.
  apply py_index_returns in E5, E10.
  repeat (split; [assumption|]).
  destruct (decide (closed = "")) as [Hc|Hc]; [left; exact Hc|right].
  rewrite (bool_decide_eq_false_2 _ Hc) in H. simpl in H.
  destruct (parser_parse closed) as [d|e]; simpl in H; [|discriminate].
  destruct (parser_parse "1980-01-01") as [h|e]; simpl in H; [|discriminate].
  exists d, h. destruct (datetime_lt d h) as [[|]|e]; try discriminate H.
  auto.
Qed.

(** The shape of an accepted record. *)
Lemma validate_record_accepted_inv parser_parse (record : list string) st :
  validate_record parser_parse record = Returns (Some st) ->
  exists state county site lat lon rest la lo,
    record = state :: county :: site :: lat :: lon :: rest /\
    (state ∉ excluded_states) /\
    valid_nonzero_float lat = Returns (Some la) /\
    valid_nonzero_float lon = Returns (Some lo) /\
    after_coordinates parser_parse
      (mkStation (state ++ "|" ++ county ++ "|" ++ site) la lo) record
    = Returns (Some st).
Proof.
  intros H.
  destruct record as [|state record]; [discriminate H|].
  destruct (decide (state ∈ excluded_states)) as [Hin|Hout].
  { rewrite validate_record_excluded in H by exact Hin. discriminate. }
  destruct record as [|county [|site [|lat [|lon rest]]]];
    try (unfold validate_record in H; simpl in H;
         rewrite bool_decide_eq_false_2 in H by exact Hout;
         try destruct (valid_nonzero_float lat);
         discriminate H).
  rewrite validate_record_unfold in H by exact Hout.
  destruct (valid_nonzero_float lat) as [[la|]|e] eqn:Ela;
    destruct (valid_nonzero_float lon) as [[lo|]|e'] eqn:Elo;
    try discriminate H.
  exists state, county, site, lat, lon, rest, la, lo. auto.
Qed.

(** X6.  A record that comes back as a station has passed every rule: it
    has eleven fields or more, its region code is not excluded, its
    coordinates are not zero, its datum is WGS84 or NAD83, and its closure
    date is empty or is read by the date parser as a day that is compared
    with the day read for "1980-01-01" and is not before it. *)
Theorem accepted_record_passed_every_rule
    (parser_parse : string -> result datetime)
    (record : list string) (st : Station) :
  validate_record parser_parse record = Returns (Some st) ->
  (11 <= length record)%nat /\
  (exists state, record !! 0%nat = Some state /\ state ∉ excluded_states) /\
  latitude st <> Fin 0 /\ longitude st <> Fin 0 /\
  (exists datum, record !! 5%nat = Some datum /\ datum ∈ accepted_datums) /\
  (exists closed,
     record !! 10%nat = Some closed /\
     (closed = "" \/
      exists closed_date history_span,
        parser_parse closed = Returns closed_date /\
        parser_parse "1980-01-01" = Returns history_span /\
        datetime_lt closed_date history_span = Returns false)).
Proof.
  intros H.
  apply validate_record_accepted_inv in H
    as (state & county & site & lat & lon & rest & la & lo
        & -> & Hstate & Hla & Hlo & H).
  apply after_coordinates_inv in H
    as (-> & datum & closed & H5 & Hdatum & H10 & Hclosed).
  apply valid_nonzero_float_Some in Hla as [_ Hla].
  apply valid_nonzero_float_Some in Hlo as [_ Hlo].
  split; [apply lookup_lt_Some in H10; lia|].
  split; [exists state; split; [reflexivity|exact Hstate]|].
  split; [exact Hla|]. split; [exact Hlo|].
  split; [exists datum; auto|].
  exists closed. auto.
Qed.

Lemma accepted_record_passed_every_rule_witness :
  validate_record iso_date
    ["01"; "073"; "0023"; "33.5"; "-86.75"; "NAD83";
     ""; ""; ""; "1957-01-01"; "1985-06-01"]
  = Returns (Some (mkStation "01|073|0023" (Fin (335 / 10))
                             (Fin (- (8675 / 100))))) /\
  (11 <= length ["01"; "073"; "0023"; "33.5"; "-86.75"; "NAD83";
                 ""; ""; ""; "1957-01-01"; "1985-06-01"])%nat /\
  Fin (335 / 10) <> Fin 0.
Proof.
  assert (H : validate_record iso_date
    ["01"; "073"; "0023"; "33.5"; "-86.75"; "NAD83";
     ""; ""; ""; "1957-01-01"; "1985-06-01"]
    = Returns (Some (mkStation "01|073|0023" (Fin (335 / 10))
                               (Fin (- (8675 / 100)))))).
  { rewrite (validate_record_run iso_date "01" "073" "0023" "33.5" "-86.75"
               "NAD83" "" "" "" "1957-01-01" "1985-06-01" [] _ _
               alabama_not_excluded read_latitude read_longitude
               nad83_accepted).
    reflexivity. }
  pose proof (accepted_record_passed_every_rule iso_date _ _ H)
    as (Hlen & _ & Hlat & _).
  split; [exact H|]. split; [exact Hlen|exact Hlat].
Defined.

(** X2.  In a record whose region code and coordinates pass, a sixth
    field that is neither "WGS84" nor "NAD83" has the record rejected,
    whatever follows it: the closure date is not looked at, and a record
    that stops at its sixth field is rejected as well. *)
Theorem unknown_datum_rejected
    (parser_parse : string -> result datetime)
    (state county site lat lon datum : string) (rest : list string)
    (la lo : float) :
  state ∉ excluded_states ->
  valid_nonzero_float lat = Returns (Some la) ->
  valid_nonzero_float lon = Returns (Some lo) ->
  datum ∉ accepted_datums ->
  validate_record parser_parse
    (state :: county :: site :: lat :: lon :: datum :: rest)
  = Returns None.
Proof.
  intros Hstate Hla Hlo Hdatum.
  rewrite validate_record_unfold by exact Hstate.
  rewrite Hla, Hlo. unfold after_coordinates. simpl.
  rewrite (bool_decide_eq_false_2 _ Hdatum). reflexivity.
Qed.

Lemma nad27_not_accepted : "NAD27" ∉ accepted_datums.
Proof. by_running. Qed.

Lemma unknown_datum_rejected_witness :
  ("NAD27" ∉ accepted_datums) /\
  validate_record iso_date ["01"; "073"; "0023"; "33.5"; "-86.75"; "NAD27"]
  = Returns None.
Proof.
  split; [exact nad27_not_accepted|].
  exact (unknown_datum_rejected iso_date "01" "073" "0023" "33.5" "-86.75"
           "NAD27" [] _ _ alabama_not_excluded read_latitude read_longitude
           nad27_not_accepted).
Defined.

(** X3.  A record whose region code, coordinates and datum pass and whose
    closure-date field is empty comes back as a station, and the date
    parser is not called: the outcome is the same with a parser that
    raises on every string. *)
Theorem open_station_accepted
    (parser_parse : string -> result datetime)
    (state county site lat lon datum f7 f8 f9 f10 : string)
    (rest : list string) (la lo : float) :
  state ∉ excluded_states ->
  valid_nonzero_float lat = Returns (Some la) ->
  valid_nonzero_float lon = Returns (Some lo) ->
  datum ∈ accepted_datums ->
  validate_record parser_parse
    (state :: county :: site :: lat :: lon :: datum
       :: f7 :: f8 :: f9 :: f10 :: "" :: rest)
  = Returns (Some (mkStation (state ++ "|" ++ county ++ "|" ++ site) la lo)).
Proof.
  intros Hstate Hla Hlo Hdatum.
  rewrite (validate_record_run parser_parse state county site lat lon datum
             f7 f8 f9 f10 "" rest la lo Hstate Hla Hlo Hdatum).
  reflexivity.
Qed.

Lemma open_station_accepted_witness :
  validate_record (fun _ => Raises ValueError)
    ["01"; "073"; "0023"; "33.5"; "-86.75"; "NAD83";
     ""; ""; ""; "1957-01-01"; ""]
  = Returns (Some (mkStation "01|073|0023" (Fin (335 / 10))
                             (Fin (- (8675 / 100))))).
Proof.
  exact (open_station_accepted (fun _ => Raises ValueError)
           "01" "073" "0023" "33.5" "-86.75" "NAD83" "" "" "" "1957-01-01"
           [] _ _ alabama_not_excluded read_latitude read_longitude
           nad83_accepted).
Defined.

(** X4.  In a record whose region code, coordinates and datum pass and
    whose closure-date field is not empty, what the date parser raises on
    that field, or on the cutoff "1980-01-01" after it, is raised by
    [validate_record]: the record is neither accepted nor rejected. *)
Theorem unreadable_closure_date_raises
    (parser_parse : string -> result datetime)
    (state county site lat lon datum f7 f8 f9 f10 closed : string)
    (rest : list string) (la lo : float) (e : exn) :
  state ∉ excluded_states ->
  valid_nonzero_float lat = Returns (Some la) ->
  valid_nonzero_float lon = Returns (Some lo) ->
  datum ∈ accepted_datums ->
  closed <> "" ->
  parser_parse closed = Raises e \/
  (returns (parser_parse closed) /\ parser_parse "1980-01-01" = Raises e) ->
  validate_record parser_parse
    (state :: county :: site :: lat :: lon :: datum
       :: f7 :: f8 :: f9 :: f10 :: closed :: rest)
  = Raises e.
Proof.
  intros Hstate Hla Hlo Hdatum Hclosed Hraise.
  rewrite (validate_record_run parser_parse state county site lat lon datum
             f7 f8 f9 f10 closed rest la lo Hstate Hla Hlo Hdatum).
  rewrite bool_decide_eq_false_2 by exact Hclosed.
  destruct Hraise as [->|[[d ->] ->]]; reflexivity.
Qed.

Lemma unreadable_closure_date_raises_witness :
  iso_date "unknown" = Raises ValueError /\
  validate_record iso_date
    ["01"; "073"; "0023"; "33.5"; "-86.75"; "NAD83";
     ""; ""; ""; "1957-01-01"; "unknown"]
  = Raises ValueError.
Proof.
  split; [reflexivity|].
  exact (unreadable_closure_date_raises iso_date
           "01" "073" "0023" "33.5" "-86.75" "NAD83" "" "" "" "1957-01-01"
           "unknown" [] _ _ ValueError
           alabama_not_excluded read_latitude read_longitude
           nad83_accepted ltac:(discriminate) (or_introl eq_refl)).
Defined.




(** X8.  A record of fewer than five fields whose first field is not an
    excluded region code raises [IndexError]; so does a record with no
    field at all. *)
Theorem short_record_index_error
    (parser_parse : string -> result datetime) (record : list string) :
  (length record < 5)%nat ->
  (forall state, record !! 0%nat = Some state -> state ∉ excluded_states) ->
  validate_record parser_parse record = Raises IndexError.
Proof.
  intros Hlen Hstate.
  destruct record as [|state record]; [reflexivity|].
  assert (Hout : state ∉ excluded_states) by (apply Hstate; reflexivity).
  destruct record as [|county [|site [|lat [|lon rest]]]];
    try (simpl in Hlen; lia);
    unfold validate_record; simpl;
    rewrite bool_decide_eq_false_2 by exact Hout;
    try destruct (valid_nonzero_float_returns lat) as [? ->];
    reflexivity.
Qed.

Lemma short_record_index_error_witness :
  (length ["06"; "037"; "0002"; "34.07"] < 5)%nat /\
  validate_record iso_date ["06"; "037"; "0002"; "34.07"]
  = Raises IndexError.
Proof.
  split; [simpl; lia|].
  apply short_record_index_error; [simpl; lia|].
  intros state H. inversion H. by_running.
Defined.

(** Two strings cut at their first "|" are equal only if both parts are. *)
Lemma append_bar_inj (a a' r r' : string) :
  contains "|" a = false -> contains "|" a' = false ->
  (a ++ "|" ++ r)%string = (a' ++ "|" ++ r')%string ->
  a = a' /\ r = r'.
Proof.
  revert a'. induction a as [|c a IH]; intros [|c' a'] Ha Ha' H;
    simpl in H.
  - inversion H. auto.
  - inversion H; subst c'. simpl in Ha'. discriminate.
  - inversion H; subst c. simpl in Ha. discriminate.
  - inversion H; subst c'.
    cbn [contains] in Ha, Ha'.
    apply orb_false_iff in Ha as [_ Ha], Ha' as [_ Ha'].
    destruct (IH a' Ha Ha') as [-> ->]; auto.
Qed.

(** X7.  The station identifier tells the three fields apart: two accepted
    records with the same identifier, whose region and county fields hold
    no "|", have the same region, county and site fields. *)
Theorem station_id_unambiguous
    (parser_parse parser_parse' : string -> result datetime)
    (record record' : list string) (st st' : Station) :
  validate_record parser_parse record = Returns (Some st) ->
  validate_record parser_parse' record' = Returns (Some st') ->
  Forall (fun field => contains "|" field = false) (take 2 record) ->
  Forall (fun field => contains "|" field = false) (take 2 record') ->
  station_id st = station_id st' ->
  take 3 record = take 3 record'.
Proof.
  intros H H' Hbar Hbar' Hid.
  apply validate_record_accepted_inv in H
    as (state & county & site & lat & lon & rest & la & lo
        & -> & _ & _ & _ & H).
  apply validate_record_accepted_inv in H'
    as (state' & county' & site' & lat' & lon' & rest' & la' & lo'
        & -> & _ & _ & _ & H').
  apply after_coordinates_Some in H, H'. subst st st'.
  simpl in Hid, Hbar, Hbar'.
  inversion Hbar as [|? ? Hs Hbar1]; subst.
  inversion Hbar1 as [|? ? Hc _]; subst.
  inversion Hbar' as [|? ? Hs' Hbar1']; subst.
  inversion Hbar1' as [|? ? Hc' _]; subst.
  apply append_bar_inj in Hid as [-> Hid]; [|assumption..].
  apply append_bar_inj in Hid as [-> ->]; [|assumption..].
  reflexivity.
Qed.

Lemma wgs84_accepted : "WGS84" ∈ accepted_datums.
Proof. by_running. Qed.

Lemma station_id_unambiguous_witness :
  validate_record iso_date
    ["01"; "073"; "0023"; "33.5"; "-86.75"; "NAD83"; ""; ""; ""; ""; ""]
  = Returns (Some (mkStation "01|073|0023" (Fin (335 / 10))
                             (Fin (- (8675 / 100))))) /\
  validate_record iso_date
    ["01"; "073"; "0023"; "-86.75"; "33.5"; "WGS84"; ""; ""; ""; ""; "";
     "Jefferson"]
  = Returns (Some (mkStation "01|073|0023" (Fin (- (8675 / 100)))
                             (Fin (335 / 10)))) /\
  take 3 ["01"; "073"; "0023"; "33.5"; "-86.75"; "NAD83";
          ""; ""; ""; ""; ""]
  = take 3 ["01"; "073"; "0023"; "-86.75"; "33.5"; "WGS84";
            ""; ""; ""; ""; ""; "Jefferson"].
Proof.
  assert (H1 : validate_record iso_date
    ["01"; "073"; "0023"; "33.5"; "-86.75"; "NAD83"; ""; ""; ""; ""; ""]
    = Returns (Some (mkStation "01|073|0023" (Fin (335 / 10))
                               (Fin (- (8675 / 100)))))).
  { rewrite (validate_record_run iso_date "01" "073" "0023" "33.5" "-86.75"
               "NAD83" "" "" "" "" "" [] _ _
               alabama_not_excluded read_latitude read_longitude
               nad83_accepted).
    reflexivity. }
  assert (H2 : validate_record iso_date
    ["01"; "073"; "0023"; "-86.75"; "33.5"; "WGS84"; ""; ""; ""; ""; "";
     "Jefferson"]
    = Returns (Some (mkStation "01|073|0023" (Fin (- (8675 / 100)))
                               (Fin (335 / 10))))).
  { rewrite (validate_record_run iso_date "01" "073" "0023" "-86.75" "33.5"
               "WGS84" "" "" "" "" "" ["Jefferson"] _ _
               alabama_not_excluded read_longitude read_latitude
               wgs84_accepted).
    reflexivity. }
  split; [exact H1|]. split; [exact H2|].
  apply (station_id_unambiguous iso_date iso_date _ _ _ _ H1 H2).
  - repeat constructor.
  - repeat constructor.
  - reflexivity.
Defined.

Lemma encode_ascii_ignore_drop (u1 u2 : string) (c : ascii) :
  (128 <= N_of_ascii c)%N ->
  encode_ascii_ignore (u1 ++ String c u2) = encode_ascii_ignore (u1 ++ u2).
Proof.
  intros Hc. induction u1 as [|c1 u1 IH]; simpl.
  - destruct (N.ltb_spec (N_of_ascii c) 128); [lia|reflexivity].
  - rewrite IH. reflexivity.
Qed.

(** X9.  A character outside ASCII, anywhere in the line, is ignored: the
    line gives what it would give without that character. *)
Theorem non_ascii_character_ignored
    (csv_reader_next : string -> result (list string))
    (parser_parse : string -> result datetime)
    (before after : string) (c : ascii) :
  (128 <= N_of_ascii c)%N ->
  parse_station_record csv_reader_next parser_parse
    (before ++ String c after) =
  parse_station_record csv_reader_next parser_parse (before ++ after).
Proof.
  intros Hc. unfold parse_station_record.
  rewrite (encode_ascii_ignore_drop before after c Hc). reflexivity.
Qed.

Lemma non_ascii_character_ignored_witness :
  (128 <= N_of_ascii "233")%N /\
  parse_station_record plain_csv iso_date
    ("CC,001,0001,Montr" ++ String "233" "al") =
  parse_station_record plain_csv iso_date ("CC,001,0001,Montr" ++ "al").
Proof.
  assert (H : (128 <= N_of_ascii "233")%N) by (vm_compute; discriminate).
  split; [exact H|].
  exact (non_ascii_character_ignored plain_csv iso_date
           "CC,001,0001,Montr" "al" "233" H).
Defined.

(* ------------------------------------------------------------------ *)
(** * Further properties of the distance *)

Local Open Scope R_scope.

Lemma bind_raises_inv {A B} (m : result A) (f : A -> result B) (e : exn) :
  m ≫= f = Raises e ->
  m = Raises e \/ exists a, m = Returns a /\ f a = Raises e.
Proof.
  destruct m as [a|e']; simpl; intros H;
    [right; eauto|left; inversion H; reflexivity].
Qed.

Lemma math_sin_raises (x : float) (e : exn) :
  math_sin x = Raises e -> e = ValueError.
Proof. destruct x; simpl; intros H; inversion H; reflexivity. Qed.

Lemma distance_of_term_raises (a : float) (e : exn) :
  distance_of_term a = Raises e -> e = ValueError.
Proof.
  unfold distance_of_term. intros H.
  apply bind_raises_inv in H as [H|(root & _ & H)].
  - destruct a as [r| | |]; simpl in H; try discriminate.
    + destruct (Rlt_dec r 0); inversion H; reflexivity.
    + inversion H; reflexivity.
  - apply bind_raises_inv in H as [H|(angle & _ & H)]; [|discriminate].
    destruct root as [r| | |]; simpl in H; try discriminate;
      try (inversion H; reflexivity).
    destruct (Rlt_dec r (-1)); [inversion H; reflexivity|].
    destruct (Rlt_dec 1 r); inversion H; reflexivity.
Qed.

(** [calc_distance] raises nothing but [ValueError]. *)
Lemma calc_distance_raises_value_error (lat1 lon1 lat2 lon2 : float)
    (e : exn) :
  calc_distance lat1 lon1 lat2 lon2 = Raises e -> e = ValueError.
Proof.
  intros H. rewrite calc_distance_steps in H.
  apply bind_raises_inv in H as [H|(sin_lat & _ & H)];
    [exact (math_sin_raises _ _ H)|].
  apply bind_raises_inv in H as [H|(cos1 & _ & H)];
    [exact (math_cos_raises _ _ H)|].
  apply bind_raises_inv in H as [H|(cos2 & _ & H)];
    [exact (math_cos_raises _ _ H)|].
  apply bind_raises_inv in H as [H|(sin_lon & _ & H)];
    [exact (math_sin_raises _ _ H)|].
  exact (distance_of_term_raises _ _ H).
Qed.

(** X15.  An infinite latitude, of either point and of either sign, makes
    [calc_distance] raise [ValueError], whatever the other coordinates. *)
Theorem infinite_latitude_raises (lat1 lon1 lat2 lon2 : float) :
  lat1 = PInf \/ lat1 = NInf \/ lat2 = PInf \/ lat2 = NInf ->
  calc_distance lat1 lon1 lat2 lon2 = Raises ValueError.
Proof.
  intros H. rewrite calc_distance_steps, !half_radians, !radians_special.
  destruct H as [-> | [-> | [-> | ->]]].
  - destruct lat2; reflexivity.
  - destruct lat2; reflexivity.
  - destruct lat1; reflexivity.
  - destruct lat1; reflexivity.
Qed.

Lemma infinite_latitude_raises_witness :
  calc_distance PInf NaN PInf PInf = Raises ValueError.
Proof.
  exact (infinite_latitude_raises PInf NaN PInf PInf (or_introl eq_refl)).
Defined.

(** X16.  With at least one NaN coordinate, the other coordinates being
    numbers of at most 360 in absolute value, [calc_distance] raises
    nothing and returns NaN. *)
Theorem nan_coordinate_gives_nan (lat1 lon1 lat2 lon2 : float) :
  Forall (fun x => x = NaN \/ exists r : R, x = Fin r /\ Rabs r <= 360)
         [lat1; lon1; lat2; lon2] ->
  Exists (fun x => x = NaN) [lat1; lon1; lat2; lon2] ->
  calc_distance lat1 lon1 lat2 lon2 = Returns NaN.
Proof.
  intros Hrange Hnan.
  rewrite calc_distance_steps, !half_radians, !radians_special.
  repeat match goal with
         | H : Forall _ (_ :: _) |- _ =>
             let H1 := fresh in
             apply Forall_cons in H as [H1 H];
             destruct H1 as [H1|(? & H1 & _)]
         end;
    subst; try reflexivity.
  exfalso.
  repeat match goal with
         | H : Exists _ (_ :: _) |- _ =>
             apply Exists_cons in H as [H|H]; [discriminate H|]
         end.
  apply Exists_nil in Hnan. exact Hnan.
Qed.

Lemma nan_coordinate_gives_nan_witness :
  Rabs 40 <= 360 /\
  calc_distance (Fin 40) NaN (Fin 41) (Fin (-75)) = Returns NaN.
Proof.
  assert (Hb : forall r : R, -360 <= r <= 360 -> Rabs r <= 360).
  { intros r Hr. apply Rabs_le. exact Hr. }
  split; [apply Hb; lra|].
  apply nan_coordinate_gives_nan.
  - constructor; [right; exists 40; split; [reflexivity|apply Hb; lra]|].
    constructor; [left; reflexivity|].
    constructor; [right; exists 41; split; [reflexivity|apply Hb; lra]|].
    constructor; [right; exists (-75); split; [reflexivity|apply Hb; lra]|].
    constructor.
  - apply Exists_cons_tl, Exists_cons_hd. reflexivity.
Defined.

(** X17.  A finite number comes back only for finite coordinates: when
    [calc_distance] returns a float that is neither NaN nor an infinity,
    none of the four coordinates is NaN or an infinity. *)
Theorem finite_distance_finite_coordinates
    (lat1 lon1 lat2 lon2 : float) (r : R) :
  calc_distance lat1 lon1 lat2 lon2 = Returns (Fin r) ->
  exists a1 o1 a2 o2 : R,
    lat1 = Fin a1 /\ lon1 = Fin o1 /\ lat2 = Fin a2 /\ lon2 = Fin o2.
Proof.
  intros H.
  rewrite calc_distance_steps, !half_radians, !radians_special in H.
  destruct lat1 as [a1| | |], lon1 as [o1| | |],
           lat2 as [a2| | |], lon2 as [o2| | |];
    try (cbn in H; discriminate H).
  exists a1, o1, a2, o2. auto.
Qed.

Lemma finite_distance_finite_coordinates_witness :
  calc_distance (Fin 40) (Fin (-75)) (Fin 40) (Fin (-75)) = Returns (Fin 0) /\
  exists a1 o1 a2 o2 : R,
    Fin 40 = Fin a1 /\ Fin (-75) = Fin o1 /\
    Fin 40 = Fin a2 /\ Fin (-75) = Fin o2.
Proof.
  assert (H : calc_distance (Fin 40) (Fin (-75)) (Fin 40) (Fin (-75))
              = Returns (Fin 0)).
  { rewrite calc_distance_finite, haversine_same_point, sqrt_0, asin_0.
    do 2 f_equal. ring. }
  split; [exact H|].
  exact (finite_distance_finite_coordinates _ _ _ _ _ H).
Defined.

(* ------------------------------------------------------------------ *)
(** * Further properties of the neighbour map *)

Lemma scan_grid_raises (station : Station) (grid : list GridPoint) :
  forall (acc : gmap string float) (e : exn),
  scan_grid station grid acc = Raises e -> e = ValueError.
Proof.
  induction grid as [|g grid IH]; intros acc e H; simpl in H.
  - discriminate.
  - apply bind_raises_inv in H as [H|(d & _ & H)].
    + exact (calc_distance_raises_value_error _ _ _ _ _ H).
    + exact (IH _ _ H).
Qed.

(** X14.  The distance computations raise nothing but [ValueError], the
    "math domain error" of the [math] module: so it is for
    [calc_distance] and for [determine_grid_point_neighbors], whatever the
    coordinates and the grid. *)
Theorem distance_errors_are_value_errors
    (GRID : list GridPoint) (rdd : Station)
    (lat1 lon1 lat2 lon2 : float) (e : exn) :
  (calc_distance lat1 lon1 lat2 lon2 = Raises e -> e = ValueError) /\
  (determine_grid_point_neighbors GRID rdd = Raises e -> e = ValueError).
Proof.
  split.
  - apply calc_distance_raises_value_error.
  - unfold determine_grid_point_neighbors. intros H.
    apply bind_raises_inv in H as [H|(m & _ & H)]; [|discriminate].
    exact (scan_grid_raises _ _ _ _ H).
Qed.

(** The loop leaves alone the keys of the grid points it does not visit. *)
Lemma scan_grid_other_keys (station : Station) (grid : list GridPoint)
    (key : string) :
  forall (acc result : gmap string float),
  scan_grid station grid acc = Returns result ->
  Forall (fun g => grid_id g <> key) grid ->
  result !! key = acc !! key.
Proof.
  induction grid as [|g grid IH]; intros acc result H Hkeys; simpl in H.
  - inversion H. reflexivity.
  - apply bind_inv in H as (d & _ & H).
    apply Forall_cons in Hkeys as [Hg Hkeys].
    rewrite (IH _ _ H Hkeys).
    destruct (flt d d_cutoff); [|reflexivity].
    apply lookup_insert_ne. exact Hg.
Qed.

(** The loop over two lists in a row. *)
Lemma scan_grid_app (station : Station) (grid1 grid2 : list GridPoint) :
  forall acc : gmap string float,
  scan_grid station (grid1 ++ grid2) acc =
  scan_grid station grid1 acc ≫= scan_grid station grid2.
Proof.
  induction grid1 as [|g grid1 IH]; intros acc; simpl.
  - reflexivity.
  - destruct (calc_distance (grid_lat g) (grid_lon g)
                (latitude station) (longitude station)) as [d|e];
      simpl; [apply IH|reflexivity].
Qed.

(** The entry of a grid point closer than the cutoff that no later grid
    point shares its id with. *)
Lemma scan_grid_last (station : Station) (before after : list GridPoint)
    (g : GridPoint) (d : float) (acc result : gmap string float) :
  scan_grid station (before ++ g :: after) acc = Returns result ->
  calc_distance (grid_lat g) (grid_lon g)
                (latitude station) (longitude station) = Returns d ->
  flt d d_cutoff = true ->
  Forall (fun g' => grid_id g' <> grid_id g) after ->
  result !! grid_id g = Some (py_round d precision).
Proof.
  intros H Hd Hlt Hafter.
  rewrite scan_grid_app in H.
  apply bind_inv in H as (acc1 & _ & H).
  simpl in H. rewrite Hd in H. simpl in H. rewrite Hlt in H.
  rewrite (scan_grid_other_keys _ _ _ _ _ H Hafter).
  apply lookup_insert_eq.
Qed.

(** X18.  A grid point closer than the cutoff is in the mapping under its
    id, with its own rounded distance unless a later grid point has the
    same id: of two grid points with one id, the later one decides. *)
Theorem last_grid_point_decides
    (before after : list GridPoint) (g : GridPoint) (rdd : Station)
    (d : float) (sid : string) (neighbors : gmap string float) :
  determine_grid_point_neighbors (before ++ g :: after) rdd
    = Returns (sid, neighbors) ->
  calc_distance (grid_lat g) (grid_lon g) (latitude rdd) (longitude rdd)
    = Returns d ->
  flt d d_cutoff = true ->
  Forall (fun g' => grid_id g' <> grid_id g) after ->
  neighbors !! grid_id g = Some (py_round d precision).
Proof.
  unfold determine_grid_point_neighbors. intros H Hd Hlt Hafter.
  apply bind_inv in H as (m & Hscan & H).
  inversion H; subst sid neighbors; clear H.
  exact (scan_grid_last _ _ _ _ _ _ _ Hscan Hd Hlt Hafter).
Qed.

Lemma calc_distance_same_point (lat lon : R) :
  calc_distance (Fin lat) (Fin lon) (Fin lat) (Fin lon) = Returns (Fin 0).
Proof.
  rewrite calc_distance_finite, haversine_same_point, sqrt_0, asin_0.
  do 2 f_equal. ring.
Qed.

Lemma py_round_zero : py_round (Fin 0) precision = Fin 0.
Proof.
  simpl. f_equal. unfold round_half_away.
  destruct (Rle_dec 0 (0 * (10 * 1))); [|lra].
  rewrite (Zfloor_eq 0); lra.
Qed.

Lemma flt_zero_cutoff : flt (Fin 0) d_cutoff = true.
Proof. simpl. destruct (Rlt_dec 0 30); [reflexivity|lra]. Qed.

(** A station with two grid points of one id around it: the first one
    29.97 miles away, the second one at the station itself. *)
Lemma two_grid_points_one_id :
  determine_grid_point_neighbors
    ([mkGridPoint "g1" (Fin 40) (Fin (-75))]
       ++ mkGridPoint "g1" (Fin (404338 / 10000)) (Fin (-75)) :: [])
    (mkStation "42|101|0004" (Fin (404338 / 10000)) (Fin (-75)))
  = Returns ("42|101|0004", {["g1" := Fin 0]}).
Proof.
  destruct near_cutoff_distance as (r & Hd & Hr).
  destruct (near_cutoff_rounds r Hr) as [Hlt Hround].
  unfold determine_grid_point_neighbors. simpl.
  rewrite Hd. cbn [mbind result_bind].
  rewrite calc_distance_same_point. cbn [mbind result_bind].
  rewrite Hlt, flt_zero_cutoff, py_round_zero, insert_insert_eq.
  reflexivity.
Qed.

Lemma last_grid_point_decides_witness :
  determine_grid_point_neighbors
    ([mkGridPoint "g1" (Fin 40) (Fin (-75))]
       ++ mkGridPoint "g1" (Fin (404338 / 10000)) (Fin (-75)) :: [])
    (mkStation "42|101|0004" (Fin (404338 / 10000)) (Fin (-75)))
  = Returns ("42|101|0004", {["g1" := Fin 0]}) /\
  flt (Fin 0) d_cutoff = true /\
  ({["g1" := Fin 0]} : gmap string float) !! "g1"
  = Some (py_round (Fin 0) precision).
Proof.
  split; [exact two_grid_points_one_id|].
  split; [exact flt_zero_cutoff|].
  exact (last_grid_point_decides _ _
           (mkGridPoint "g1" (Fin (404338 / 10000)) (Fin (-75))) _ _ _ _
           two_grid_points_one_id (calc_distance_same_point _ _)
           flt_zero_cutoff (Forall_nil_2 _)).
Defined.

(** X19.  A grid point at the very place of a station with finite
    coordinates is in the mapping with the distance 0.0, provided no later
    grid point has its id. *)
Theorem coincident_grid_point_zero
    (before after : list GridPoint) (g : GridPoint) (rdd : Station)
    (sid : string) (neighbors : gmap string float) :
  determine_grid_point_neighbors (before ++ g :: after) rdd
    = Returns (sid, neighbors) ->
  finite_point g ->
  latitude rdd = grid_lat g -> longitude rdd = grid_lon g ->
  Forall (fun g' => grid_id g' <> grid_id g) after ->
  neighbors !! grid_id g = Some (Fin 0).
Proof.
  unfold determine_grid_point_neighbors.
  intros H (lat & lon & Hlat & Hlon) Hslat Hslon Hafter.
  apply bind_inv in H as (m & Hscan & H).
  inversion H; subst sid neighbors; clear H.
  rewrite <- py_round_zero.
  apply (scan_grid_last _ _ _ _ _ _ _ Hscan);
    [|exact flt_zero_cutoff|exact Hafter].
  rewrite Hslat, Hslon, Hlat, Hlon. apply calc_distance_same_point.
Qed.

Lemma coincident_grid_point_zero_witness :
  finite_point (mkGridPoint "g1" (Fin (404338 / 10000)) (Fin (-75))) /\
  ({["g1" := Fin 0]} : gmap string float) !! "g1" = Some (Fin 0).
Proof.
  assert (Hfin : finite_point
                   (mkGridPoint "g1" (Fin (404338 / 10000)) (Fin (-75)))).
  { eexists _, _. split; reflexivity. }
  split; [exact Hfin|].
  exact (coincident_grid_point_zero _ _
           (mkGridPoint "g1" (Fin (404338 / 10000)) (Fin (-75))) _ _ _
           two_grid_points_one_id Hfin eq_refl eq_refl (Forall_nil_2 _)).
Defined.





(** The loop returns exactly when the distance to every grid point does. *)
Lemma scan_grid_returns (station : Station) (grid : list GridPoint) :
  forall acc : gmap string float,
  returns (scan_grid station grid acc) <->
  Forall (fun g => returns (calc_distance (grid_lat g) (grid_lon g)
                              (latitude station) (longitude station))) grid.
Proof.
  induction grid as [|g grid IH]; intros acc; simpl.
  - split; [constructor|]. intros _. eexists. reflexivity.
  - split.
    + intros [m H]. apply bind_inv in H as (d & Hd & H).
      constructor; [exists d; exact Hd|].
      eapply IH. exists m. exact H.
    + intros H. apply Forall_cons in H as [[d Hd] H].
      rewrite Hd. simpl. apply IH, H.
Qed.

(** X21.  [determine_grid_point_neighbors] raises nothing exactly when
    [calc_distance] raises on none of the grid points; what it returns is
    the station's id with a mapping, which is empty when the grid is. *)
Theorem neighbors_return_condition (GRID : list GridPoint) (rdd : Station) :
  (returns (determine_grid_point_neighbors GRID rdd) <->
   Forall (fun g => returns (calc_distance (grid_lat g) (grid_lon g)
                               (latitude rdd) (longitude rdd))) GRID) /\
  (forall (sid : string) (neighbors : gmap string float),
     determine_grid_point_neighbors GRID rdd = Returns (sid, neighbors) ->
     sid = station_id rdd /\ (GRID = [] -> neighbors = ∅)).
Proof.
  unfold determine_grid_point_neighbors. split.
  - rewrite <- (scan_grid_returns rdd GRID ∅). split.
    + intros [[sid m] H]. apply bind_inv in H as (m' & H & _).
      exists m'. exact H.
    + intros [m H]. rewrite H. eexists. reflexivity.
  - intros sid neighbors H.
    apply bind_inv in H as (m & Hscan & H).
    inversion H; subst sid neighbors; clear H.
    split; [reflexivity|].
    intros ->. inversion Hscan. reflexivity.
Qed.

(** With ids that are all different, what the mapping holds under a key. *)
Lemma scan_grid_lookup (station : Station) (grid : list GridPoint)
    (result : gmap string float) (gid : string) (v : float) :
  NoDup (grid_id <$> grid) ->
  scan_grid station grid ∅ = Returns result ->
  result !! gid = Some v <->
  exists g d,
    g ∈ grid /\ grid_id g = gid /\
    calc_distance (grid_lat g) (grid_lon g)
                  (latitude station) (longitude station) = Returns d /\
    flt d d_cutoff = true /\ v = py_round d precision.
Proof.
  intros Hnodup Hscan. split.
  - intros Hv.
    destruct (scan_grid_entries _ _ _ _ Hscan gid v Hv) as [Hempty|H];
      [rewrite lookup_empty in Hempty; discriminate|exact H].
  - intros (g & d & Hin & <- & Hd & Hlt & ->).
    apply list_elem_of_split in Hin as (before & after & ->).
    apply (scan_grid_last _ _ _ _ _ _ _ Hscan Hd Hlt).
    rewrite fmap_app, fmap_cons in Hnodup.
    apply NoDup_app in Hnodup as (_ & _ & Hnodup).
    apply NoDup_cons in Hnodup as [Hnotin _].
    apply Forall_forall. intros g' Hg' Heq.
    apply Hnotin. rewrite <- Heq. apply list_elem_of_fmap_2, Hg'.
Qed.

(** X22.  The order of the grid points does not matter when their ids are
    all different: a grid and a rearrangement of it give the same
    outcome. *)
Theorem grid_order_irrelevant (GRID GRID' : list GridPoint) (rdd : Station) :
  NoDup (grid_id <$> GRID) ->
  GRID ≡ₚ GRID' ->
  determine_grid_point_neighbors GRID rdd
  = determine_grid_point_neighbors GRID' rdd.
Proof.
  intros Hnodup Hperm.
  assert (Hnodup' : NoDup (grid_id <$> GRID')).
  { rewrite <- Hperm. exact Hnodup. }
  unfold determine_grid_point_neighbors.
  assert (Hmem : forall g, g ∈ GRID <-> g ∈ GRID').
  { intros g. rewrite Hperm. reflexivity. }
  pose proof (scan_grid_returns rdd GRID ∅) as Hret.
  assert (Hret' : returns (scan_grid rdd GRID' ∅) <->
                  Forall (fun g => returns
                            (calc_distance (grid_lat g) (grid_lon g)
                               (latitude rdd) (longitude rdd))) GRID).
  { rewrite scan_grid_returns, !Forall_forall.
    split; intros H g Hg; apply H, Hmem, Hg. }
  destruct (scan_grid rdd GRID ∅) as [m|e] eqn:Hscan;
    destruct (scan_grid rdd GRID' ∅) as [m'|e'] eqn:Hscan'; simpl.
  - do 2 f_equal. apply map_eq. intros gid.
    apply option_eq. intros v.
    rewrite (scan_grid_lookup _ _ _ gid v Hnodup Hscan).
    rewrite (scan_grid_lookup _ _ _ gid v Hnodup' Hscan').
    split; intros (g & d & Hin & H); exists g, d;
      (split; [apply Hmem, Hin|exact H]).
  - exfalso. assert (H : returns (@Raises (gmap string float) e')).
    { apply Hret', Hret. eexists. reflexivity. }
    destruct H as [? H]. discriminate H.
  - exfalso. assert (H : returns (@Raises (gmap string float) e)).
    { apply Hret, Hret'. eexists. reflexivity. }
    destruct H as [? H]. discriminate H.
  - apply scan_grid_raises in Hscan, Hscan'. subst. reflexivity.
Qed.

Lemma two_ids_differ :
  NoDup (grid_id <$> [mkGridPoint "g1" (Fin 40) (Fin (-75));
                      mkGridPoint "g2" (Fin 41) (Fin (-75))]).
Proof.
  simpl. apply NoDup_cons. split.
  - intros H. apply list_elem_of_singleton in H. discriminate H.
  - apply NoDup_singleton.
Qed.

Lemma grid_order_irrelevant_witness :
  NoDup (grid_id <$> [mkGridPoint "g1" (Fin 40) (Fin (-75));
                      mkGridPoint "g2" (Fin 41) (Fin (-75))]) /\
  determine_grid_point_neighbors
    [mkGridPoint "g1" (Fin 40) (Fin (-75));
     mkGridPoint "g2" (Fin 41) (Fin (-75))]
    (mkStation "42|101|0004" (Fin (404338 / 10000)) (Fin (-75)))
  = determine_grid_point_neighbors
      [mkGridPoint "g2" (Fin 41) (Fin (-75));
       mkGridPoint "g1" (Fin 40) (Fin (-75))]
      (mkStation "42|101|0004" (Fin (404338 / 10000)) (Fin (-75))).
Proof.
  split; [exact two_ids_differ|].
  exact (grid_order_irrelevant _ _ _ two_ids_differ (perm_swap _ _ _)).
Defined.

(* ------------------------------------------------------------------ *)
(** * Properties of the job *)

Local Close Scope R_scope.

Lemma rdd_map_inv {A B} (f : A -> result B) (rdd : list A) :
  forall ys, rdd_map f rdd = Returns ys ->
             Forall2 (fun x y => f x = Returns y) rdd ys.
Proof.
  induction rdd as [|x rdd IH]; intros ys H; simpl in H.
  - inversion H. constructor.
  - apply bind_inv in H as (y & Hy & H).
    apply bind_inv in H as (ys' & Hys & H).
    inversion H. constructor; [exact Hy|exact (IH _ Hys)].
Qed.

Lemma rdd_map_intro {A B} (f : A -> result B) (rdd : list A) (ys : list B) :
  Forall2 (fun x y => f x = Returns y) rdd ys -> rdd_map f rdd = Returns ys.
Proof.
  induction 1 as [|x y rdd ys Hy _ IH]; simpl; [reflexivity|].
  rewrite Hy. simpl. rewrite IH. reflexivity.
Qed.

Lemma rdd_map_raises {A B} (f : A -> result B) (rdd : list A) (x : A)
    (e : exn) :
  x ∈ rdd -> f x = Raises e -> ~ returns (rdd_map f rdd).
Proof.
  intros Hin Hx [ys H]. apply rdd_map_inv in H.
  apply list_elem_of_lookup in Hin as [i Hi].
  destruct (Forall2_lookup_l _ _ _ _ _ H Hi) as (y & _ & Hy).
  rewrite Hx in Hy. discriminate.
Qed.

(** The dictionary built from a list of pairs, from a dictionary to start
    with. *)
Lemma collect_lookup {V} (pairs : list (string * V)) :
  forall (acc : gmap string V) (key : string) (v : V),
  fold_left (fun m kv => <[kv.1 := kv.2]> m) pairs acc !! key = Some v ->
  acc !! key = Some v \/ (key, v) ∈ pairs.
Proof.
  induction pairs as [|[k w] pairs IH]; intros acc key v H; simpl in H.
  - left. exact H.
  - destruct (IH _ _ _ H) as [Hacc|Hin].
    + destruct (decide (k = key)) as [->|Hne].
      * rewrite lookup_insert_eq in Hacc. inversion Hacc.
        right. apply elem_of_cons. left. reflexivity.
      * rewrite lookup_insert_ne in Hacc by exact Hne. left. exact Hacc.
    + right. apply elem_of_cons. right. exact Hin.
Qed.

Lemma collect_other_keys {V} (pairs : list (string * V)) (key : string) :
  forall acc : gmap string V,
  Forall (fun kv => kv.1 <> key) pairs ->
  fold_left (fun m kv => <[kv.1 := kv.2]> m) pairs acc !! key = acc !! key.
Proof.
  induction pairs as [|[k w] pairs IH]; intros acc H; simpl.
  - reflexivity.
  - apply Forall_cons in H as [Hk H]. rewrite (IH _ H).
    apply lookup_insert_ne. exact Hk.
Qed.

Lemma collectAsMap_last {V} (before after : list (string * V))
    (key : string) (v : V) :
  Forall (fun kv => kv.1 <> key) after ->
  collectAsMap (before ++ (key, v) :: after) !! key = Some v.
Proof.
  intros H. unfold collectAsMap. rewrite fold_left_app. simpl.
  rewrite (collect_other_keys _ _ _ H). apply lookup_insert_eq.
Qed.

Lemma determine_grid_point_neighbors_id (GRID : list GridPoint)
    (rdd : Station) (sid : string) (neighbors : gmap string float) :
  determine_grid_point_neighbors GRID rdd = Returns (sid, neighbors) ->
  sid = station_id rdd.
Proof.
  unfold determine_grid_point_neighbors. intros H.
  apply bind_inv in H as (m & _ & H). inversion H. reflexivity.
Qed.

(** X23.  Every entry of [stations] comes from a line of the file: a line
    that [parse_station_record] turns into a station with that id, and
    the mapping stored is the one [determine_grid_point_neighbors]
    returns for that station.  Rejected lines leave nothing. *)
Theorem stations_entries_from_lines
    (csv_reader_next : string -> result (list string))
    (parser_parse : string -> result datetime)
    (GRID : list GridPoint) (data_rdd : list string)
    (result : gmap string (gmap string float))
    (sid : string) (neighbors : gmap string float) :
  stations csv_reader_next parser_parse GRID data_rdd = Returns result ->
  result !! sid = Some neighbors ->
  exists (line : string) (station : Station),
    line ∈ data_rdd /\
    parse_station_record csv_reader_next parser_parse line
      = Returns (Some station) /\
    station_id station = sid /\
    determine_grid_point_neighbors GRID station = Returns (sid, neighbors).
Proof.
  unfold stations. intros H Hlook.
  apply bind_inv in H as (parsed & Hparsed & H).
  apply bind_inv in H as (entries & Hentries & H).
  inversion H; subst result; clear H.
  apply rdd_map_inv in Hparsed, Hentries.
  destruct (collect_lookup _ _ _ _ Hlook) as [Hempty|Hin].
  { rewrite lookup_empty in Hempty. discriminate. }
  apply list_elem_of_lookup in Hin as [i Hi].
  destruct (Forall2_lookup_r _ _ _ _ _ Hentries Hi) as (station & Hst & Hnb).
  assert (Hsome : Some station ∈ parsed).
  { apply list_elem_of_lookup_2 in Hst.
    apply list_elem_of_omap in Hst as (o & Ho & Heq).
    simpl in Heq. subst o. exact Ho. }
  apply list_elem_of_lookup in Hsome as [j Hj].
  destruct (Forall2_lookup_r _ _ _ _ _ Hparsed Hj) as (line & Hline & Hp).
  exists line, station.
  split; [exact (list_elem_of_lookup_2 _ _ _ Hline)|].
  split; [exact Hp|].
  split; [|exact Hnb].
  symmetry. exact (determine_grid_point_neighbors_id _ _ _ _ Hnb).
Qed.

(** X24.  Of the lines that give a station with one id, the last one
    decides: the entry of [stations] under the id of an accepted line that
    no later accepted line shares its id with is the mapping of that
    line's station. *)
Theorem last_line_decides
    (csv_reader_next : string -> result (list string))
    (parser_parse : string -> result datetime)
    (GRID : list GridPoint) (before after : list string) (line : string)
    (station : Station) (result : gmap string (gmap string float)) :
  stations csv_reader_next parser_parse GRID (before ++ line :: after)
    = Returns result ->
  parse_station_record csv_reader_next parser_parse line
    = Returns (Some station) ->
  Forall (fun line' => forall station',
            parse_station_record csv_reader_next parser_parse line'
              = Returns (Some station') ->
            station_id station' <> station_id station) after ->
  exists neighbors : gmap string float,
    determine_grid_point_neighbors GRID station
      = Returns (station_id station, neighbors) /\
    result !! station_id station = Some neighbors.
Proof.
  unfold stations. intros H Hline Hafter.
  apply bind_inv in H as (parsed & Hparsed & H).
  apply bind_inv in H as (entries & Hentries & H).
  inversion H; subst result; clear H.
  apply rdd_map_inv in Hparsed, Hentries.
  apply Forall2_app_inv_l in Hparsed as (p1 & p2 & _ & Hp2 & ->).
  apply Forall2_cons_inv_l in Hp2 as (y & p3 & Hy & Hp3 & ->).
  rewrite Hline in Hy. inversion Hy; subst y; clear Hy.
  unfold filter_not_none in Hentries.
  rewrite omap_app in Hentries. simpl in Hentries.
  apply Forall2_app_inv_l in Hentries as (e1 & e2 & _ & He2 & ->).
  apply Forall2_cons_inv_l in He2 as ([sid nb] & e3 & He & He3 & ->).
  pose proof (determine_grid_point_neighbors_id _ _ _ _ He) as ->.
  exists nb. split; [exact He|].
  apply collectAsMap_last.
  apply Forall_forall. intros [sid' nb'] Hin. simpl.
  apply list_elem_of_lookup in Hin as [i Hi].
  destruct (Forall2_lookup_r _ _ _ _ _ He3 Hi) as (st' & Hst' & Hnb').
  pose proof (determine_grid_point_neighbors_id _ _ _ _ Hnb') as ->.
  apply list_elem_of_lookup_2 in Hst'.
  apply list_elem_of_omap in Hst' as (o & Ho & Heq).
  simpl in Heq. subst o.
  apply list_elem_of_lookup in Ho as [j Hj].
  destruct (Forall2_lookup_r _ _ _ _ _ Hp3 Hj) as (line' & Hline' & Hp').
  apply list_elem_of_lookup_2 in Hline'.
  exact (proj1 (Forall_forall _ _) Hafter line' Hline' st' Hp').
Qed.

(** X25.  When every line of the file is rejected, [stations] is the
    empty dictionary, and the grid is not looked at; so it is for a file
    with no line. *)
Theorem rejected_lines_empty_result
    (csv_reader_next : string -> result (list string))
    (parser_parse : string -> result datetime)
    (GRID : list GridPoint) (data_rdd : list string) :
  Forall (fun line =>
            parse_station_record csv_reader_next parser_parse line
            = Returns None) data_rdd ->
  stations csv_reader_next parser_parse GRID data_rdd = Returns ∅.
Proof.
  intros H. unfold stations.
  assert (Hparsed :
    rdd_map (parse_station_record csv_reader_next parser_parse) data_rdd
    = Returns (replicate (length data_rdd) None)).
  { induction H as [|line data_rdd Hline _ IH]; simpl; [reflexivity|].
    rewrite Hline. simpl. rewrite IH. reflexivity. }
  rewrite Hparsed. simpl.
  assert (Hnone : filter_not_none
                    (replicate (length data_rdd) (@None Station)) = []).
  { clear. induction data_rdd as [|line data_rdd IH]; [reflexivity|exact IH]. }
  rewrite Hnone. reflexivity.
Qed.

(** X26.  A line on which [parse_station_record] raises, or which gives a
    station on which [determine_grid_point_neighbors] raises, fails the
    whole job: [stations] returns no dictionary, whatever the other lines
    are. *)
Theorem raising_line_fails_job
    (csv_reader_next : string -> result (list string))
    (parser_parse : string -> result datetime)
    (GRID : list GridPoint) (data_rdd : list string)
    (line : string) (e : exn) :
  line ∈ data_rdd ->
  parse_station_record csv_reader_next parser_parse line = Raises e \/
  (exists station,
     parse_station_record csv_reader_next parser_parse line
       = Returns (Some station) /\
     determine_grid_point_neighbors GRID station = Raises e) ->
  ~ returns (stations csv_reader_next parser_parse GRID data_rdd).
Proof.
  intros Hin Hline [result H]. unfold stations in H.
  apply bind_inv in H as (parsed & Hparsed & H).
  destruct Hline as [Hline|(station & Hline & Hnb)].
  - apply (rdd_map_raises _ _ _ _ Hin Hline). exists parsed. exact Hparsed.
  - apply bind_inv in H as (entries & Hentries & _).
    apply (rdd_map_raises (determine_grid_point_neighbors GRID)
             (filter_not_none parsed) station e);
      [|exact Hnb|exists entries; exact Hentries].
    + apply rdd_map_inv in Hparsed.
      apply list_elem_of_lookup in Hin as [i Hi].
      destruct (Forall2_lookup_l _ _ _ _ _ Hparsed Hi) as (y & Hy & Hp).
      rewrite Hline in Hp. inversion Hp; subst y.
      apply list_elem_of_omap. exists (Some station).
      split; [exact (list_elem_of_lookup_2 _ _ _ Hy)|reflexivity].
Qed.

(** ** A small registry file, for the examples *)

Lemma pennsylvania_not_excluded : "42" ∉ excluded_states.
Proof. by_running. Qed.

Lemma read_latitude_near :
  valid_nonzero_float "40.4338" = Returns (Some (Fin (404338 / 10000)%R)).
Proof.
  exact (valid_nonzero_float_literal "40.4338" (LDec false 404338 (-4))
           eq_refl eq_refl).
Qed.

Lemma read_longitude_east :
  valid_nonzero_float "75" = Returns (Some (Fin 75%R)).
Proof.
  exact (valid_nonzero_float_literal "75" (LDec false 75 0) eq_refl eq_refl).
Qed.

Lemma header_line_rejected :
  parse_station_record plain_csv iso_date
    "State Code,County Code,Site Number,Latitude,Longitude,Datum"
  = Returns None.
Proof. vm_compute. reflexivity. Qed.

Lemma canada_line_rejected :
  parse_station_record plain_csv iso_date "CC,001,0001,45.5,-73.6,WGS84,,,,,"
  = Returns None.
Proof. vm_compute. reflexivity. Qed.

Lemma station_line_accepted :
  parse_station_record plain_csv iso_date
    "42,101,0004,40.4338,75,WGS84,,,,1957-01-01,"
  = Returns (Some (mkStation "42|101|0004" (Fin (404338 / 10000)%R)
                             (Fin 75%R))).
Proof.
  rewrite (parse_station_record_fields plain_csv iso_date
             "42,101,0004,40.4338,75,WGS84,,,,1957-01-01,"
             ["42"; "101"; "0004"; "40.4338"; "75"; "WGS84";
              ""; ""; ""; "1957-01-01"; ""] eq_refl).
  rewrite (validate_record_run iso_date "42" "101" "0004" "40.4338" "75"
             "WGS84" "" "" "" "1957-01-01" "" [] _ _
             pennsylvania_not_excluded read_latitude_near read_longitude_east
             wgs84_accepted).
  reflexivity.
Qed.

Lemma station_line_neighbors :
  determine_grid_point_neighbors
    [mkGridPoint "g1" (Fin 40%R) (Fin 75%R)]
    (mkStation "42|101|0004" (Fin (404338 / 10000)%R) (Fin 75%R))
  = Returns ("42|101|0004", {["g1" := Fin 30%R]}).
Proof.
  assert (Hd : calc_distance (Fin 40%R) (Fin 75%R)
                 (Fin (404338 / 10000)%R) (Fin 75%R)
               = Returns (Fin (3959 * ((404338 / 10000 - 40) * (PI / 180)))%R)).
  { apply distance_along_meridian. lra. }
  assert (Hr : (2996 / 100 < 3959 * ((404338 / 10000 - 40) * (PI / 180))
                < 2999 / 100)%R).
  { pose proof PI_bounds. lra. }
  destruct (near_cutoff_rounds _ Hr) as [Hlt Hround].
  unfold determine_grid_point_neighbors. simpl.
  rewrite Hd. cbn [mbind result_bind].
  rewrite Hlt, Hround. reflexivity.
Qed.

(** The job on a file of three lines, of which one is a station. *)
Lemma small_file_stations :
  stations plain_csv iso_date
    [mkGridPoint "g1" (Fin 40%R) (Fin 75%R)]
    (["State Code,County Code,Site Number,Latitude,Longitude,Datum"]
       ++ "42,101,0004,40.4338,75,WGS84,,,,1957-01-01,"
       :: ["CC,001,0001,45.5,-73.6,WGS84,,,,,"])
  = Returns {["42|101|0004" := {["g1" := Fin 30%R]}]}.
Proof.
  unfold stations.
  rewrite (rdd_map_intro _ _
             [None;
              Some (mkStation "42|101|0004" (Fin (404338 / 10000)%R)
                              (Fin 75%R));
              None]).
  2:{ constructor; [exact header_line_rejected|].
      constructor; [exact station_line_accepted|].
      constructor; [exact canada_line_rejected|].
      constructor. }
  cbn [mbind result_bind].
  rewrite (rdd_map_intro _ _ [("42|101|0004", {["g1" := Fin 30%R]})]).
  2:{ constructor; [exact station_line_neighbors|].
      constructor. }
  reflexivity.
Qed.

Lemma stations_entries_from_lines_witness :
  exists (line : string) (station : Station),
    line ∈ ["State Code,County Code,Site Number,Latitude,Longitude,Datum";
            "42,101,0004,40.4338,75,WGS84,,,,1957-01-01,";
            "CC,001,0001,45.5,-73.6,WGS84,,,,,"] /\
    parse_station_record plain_csv iso_date line = Returns (Some station) /\
    station_id station = "42|101|0004" /\
    determine_grid_point_neighbors
      [mkGridPoint "g1" (Fin 40%R) (Fin 75%R)] station
    = Returns ("42|101|0004", {["g1" := Fin 30%R]}).
Proof.
  exact (stations_entries_from_lines plain_csv iso_date _ _ _
           "42|101|0004" _ small_file_stations (lookup_singleton_eq _ _)).
Defined.

Lemma last_line_decides_witness :
  exists neighbors : gmap string float,
    determine_grid_point_neighbors
      [mkGridPoint "g1" (Fin 40%R) (Fin 75%R)]
      (mkStation "42|101|0004" (Fin (404338 / 10000)%R) (Fin 75%R))
    = Returns ("42|101|0004", neighbors) /\
    ({["42|101|0004" := {["g1" := Fin 30%R]}]}
       : gmap string (gmap string float)) !! "42|101|0004" = Some neighbors.
Proof.
  apply (last_line_decides plain_csv iso_date _ _ _ _ _ _
           small_file_stations station_line_accepted).
  apply Forall_cons. split; [|apply Forall_nil_2].
  intros station' H.
  rewrite canada_line_rejected in H. discriminate H.
Defined.

Lemma rejected_lines_empty_result_witness :
  stations plain_csv iso_date
    [mkGridPoint "g1" PInf NaN]
    ["State Code,County Code,Site Number,Latitude,Longitude,Datum";
     "CC,001,0001,45.5,-73.6,WGS84,,,,,"]
  = Returns ∅.
Proof.
  apply rejected_lines_empty_result.
  apply Forall_cons. split; [exact header_line_rejected|].
  apply Forall_cons. split; [exact canada_line_rejected|].
  apply Forall_nil_2.
Defined.

Lemma infinite_station_line :
  parse_station_record plain_csv iso_date "42,101,0004,inf,75,WGS84,,,,,"
  = Returns (Some (mkStation "42|101|0004" PInf (Fin 75%R))).
Proof.
  rewrite (parse_station_record_fields plain_csv iso_date
             "42,101,0004,inf,75,WGS84,,,,,"
             ["42"; "101"; "0004"; "inf"; "75"; "WGS84";
              ""; ""; ""; ""; ""] eq_refl).
  rewrite (validate_record_run iso_date "42" "101" "0004" "inf" "75"
             "WGS84" "" "" "" "" "" [] PInf _
             pennsylvania_not_excluded eq_refl read_longitude_east
             wgs84_accepted).
  reflexivity.
Qed.

Lemma infinite_station_neighbors :
  determine_grid_point_neighbors
    [mkGridPoint "g1" (Fin 40%R) (Fin 75%R)]
    (mkStation "42|101|0004" PInf (Fin 75%R))
  = Raises ValueError.
Proof.
  unfold determine_grid_point_neighbors. simpl.
  rewrite calc_distance_steps, !half_radians. reflexivity.
Qed.

Lemma raising_line_fails_job_witness :
  "42,101,0004,inf,75,WGS84,,,,,"
    ∈ ["CC,001,0001,45.5,-73.6,WGS84,,,,,"; "42,101,0004,inf,75,WGS84,,,,,"] /\
  ~ returns (stations plain_csv iso_date
               [mkGridPoint "g1" (Fin 40%R) (Fin 75%R)]
               ["CC,001,0001,45.5,-73.6,WGS84,,,,,";
                "42,101,0004,inf,75,WGS84,,,,,"]).
Proof.
  assert (Hin : "42,101,0004,inf,75,WGS84,,,,,"
    ∈ ["CC,001,0001,45.5,-73.6,WGS84,,,,,"; "42,101,0004,inf,75,WGS84,,,,,"]).
  { apply elem_of_cons. right. apply elem_of_cons. left. reflexivity. }
  split; [exact Hin|].
  apply (raising_line_fails_job plain_csv iso_date _ _ _ ValueError Hin).
  right. eexists. split; [exact infinite_station_line|].
  exact infinite_station_neighbors.
Defined.
